(** * Cashier cart reservation and inventory availability

    A shallow embedding of the cashier page of the warung dashboard
    ([src/app/dashboard/cashier/page.tsx]) and of its saved-cart library
    ([@/lib/carts]).

    Modelling conventions.
    - A JavaScript [number] is an integer of [Z]: prices are rupiah amounts
      and quantities are unit counts.
    - [Map<string, number>] is a [gmap string Z]; [m.get(k) || 0] is
      [default 0 (m !! k)].
    - [string | null] is [option string]; the truthiness test of the source
      ([if (currentCartId)], [name && ...], [name || ...]) is written out:
      [null], [undefined] and the empty string are falsy.
    - The [localStorage] slot ["warung_saved_carts"] holds the list of saved
      carts it was last written with (JSON serialisation is the identity on
      these records); the page runs in a browser ([window] is defined) and
      the slot can be read and written.
    - The clock ([Date.now()], [toISOString()], [toLocaleString()]), the
      answers of [window.confirm] and the answer of the checkout request are
      inputs of the handlers; [window.alert] calls are their output. *)

From stdpp Require Import gmap strings list fin_maps.
From Stdlib Require Import ZArith DecimalString.
From Stdlib Require DecimalPos DecimalN.

Local Open Scope Z_scope.

(** ** Truthiness *)

(** [s] used as a condition: a string is truthy unless it is empty. *)
Definition truthyStr (s : string) : bool := negb (String.eqb s "").

(** [o] used as a condition, for [o : string | null | undefined]. *)
Definition truthy (o : option string) : bool :=
  match o with
  | Some s => truthyStr s
  | None => false
  end.

(** [s || undefined]. *)
Definition orUndefined (s : string) : option string :=
  if truthyStr s then Some s else None.

(** ** [@/lib/carts] *)

Module CartItem.
Record t : Type := mk {
  id : string;
  sku : string;
  name : string;
  price : Z;
  quantity : Z
}.

(** [{ ...item, quantity: q }] *)
Definition withQuantity (q : Z) (item : t) : t :=
  {| id := id item; sku := sku item; name := name item;
     price := price item; quantity := q |}.
End CartItem.

Module SavedCart.
Record t : Type := mk {
  id : string;
  name : string;
  items : list CartItem.t;
  total : Z;
  createdAt : string;
  updatedAt : string
}.
End SavedCart.

(** One reading of the clock, as the three forms the library uses. *)
Record Clock : Type := {
  Date_now : N;              (* Date.now() *)
  toISOString : string;      (* new Date().toISOString() *)
  toLocaleString : string    (* new Date().toLocaleString("id-ID", ...) *)
}.

Module Carts.

(** The parsed content of the storage slot; an absent slot is [[]]. *)
Definition Storage : Type := list SavedCart.t.

Definition getSavedCarts (localStorage : Storage) : list SavedCart.t :=
  localStorage.

(** [cart.reduce((sum, item) => sum + item.price * item.quantity, 0)] *)
Definition reduceTotal (cart : list CartItem.t) : Z :=
  fold_left (fun sum item => sum + CartItem.price item * CartItem.quantity item)
            cart 0.

(** [`${n}`] for a non-negative integer. *)
Definition showN (n : N) : string := NilZero.string_of_uint (N.to_uint n).

Definition saveCart (clock : Clock) (cart : list CartItem.t)
    (name : option string) (localStorage : Storage) : SavedCart.t * Storage :=
  let total := reduceTotal cart in
  let now := toISOString clock in
  let cartId := ("cart-" ++ showN (Date_now clock))%string in
  let cartName :=
    if truthy name then default ""%string name
    else ("Cart " ++ toLocaleString clock)%string in
  let savedCart :=
    {| SavedCart.id := cartId; SavedCart.name := cartName;
       SavedCart.items := cart; SavedCart.total := total;
       SavedCart.createdAt := now; SavedCart.updatedAt := now |} in
  let carts := getSavedCarts localStorage in
  (savedCart, savedCart :: carts).

(** [carts.findIndex(p)]; [None] stands for [-1]. *)
Fixpoint findIndex {A} (p : A -> bool) (l : list A) : option nat :=
  match l with
  | [] => None
  | x :: l' => if p x then Some O else S <$> findIndex p l'
  end.

Definition updateCart (clock : Clock) (cartId : string)
    (cart : list CartItem.t) (name : option string) (localStorage : Storage)
    : option SavedCart.t * Storage :=
  let total := reduceTotal cart in
  let now := toISOString clock in
  let carts := getSavedCarts localStorage in
  match findIndex (fun c => String.eqb (SavedCart.id c) cartId) carts with
  | None => (None, localStorage)
  | Some cartIndex =>
      match carts !! cartIndex with
      | None => (None, localStorage)
      | Some old =>
          let updatedCart :=
            {| SavedCart.id := SavedCart.id old;
               SavedCart.name :=
                 if truthy name then default ""%string name
                 else SavedCart.name old;
               SavedCart.items := cart;
               SavedCart.total := total;
               SavedCart.createdAt := SavedCart.createdAt old;
               SavedCart.updatedAt := now |} in
          (Some updatedCart, <[cartIndex := updatedCart]> carts)
      end
  end.

Definition deleteCart (cartId : string) (localStorage : Storage)
    : bool * Storage :=
  let carts := getSavedCarts localStorage in
  let filteredCarts :=
    List.filter (fun c => negb (String.eqb (SavedCart.id c) cartId)) carts in
  (true, filteredCarts).

Definition getCartById (cartId : string) (localStorage : Storage)
    : option SavedCart.t :=
  List.find (fun c => String.eqb (SavedCart.id c) cartId)
            (getSavedCarts localStorage).

End Carts.

(** ** The cashier page: data *)

Module Product.
(** [category] and the optional inventory [quantity] of the interface are
    display data; no handler below reads them. *)
Record t : Type := mk {
  id : string;
  name : string;
  sku : option string;
  selling_price : Z
}.
End Product.

Module InventoryItem.
(** A stock batch.  [expiry_date] is the time stamp, in milliseconds, of
    local midnight of the batch's expiry day: the value of
    [expiry.getTime()] after [expiry.setHours(0, 0, 0, 0)]. *)
Record t : Type := mk {
  product : Product.t;
  quantity : Z;
  expiry_date : Z
}.
End InventoryItem.

Inductive ExpiryStatus : Type := valid | near_expiry | expired.

(** What the page shows through [window.alert]. *)
Inductive Alert : Type :=
  | InsufficientInventory (available requested : Z)
  | CartEmpty
  | CartUpdated
  | CartSaved
  | OrderCreated
  | OrderFailed.

(** The answer of [POST /api/orders/checkout]. *)
Inductive CheckoutResponse : Type :=
  | NetworkError      (* [fetch] rejects *)
  | Rejected          (* [!response.ok] *)
  | Accepted.

(** The component state that the cart handlers read or write, together with
    the storage slot of the saved carts. *)
Record State : Type := mkState {
  cart : list CartItem.t;
  savedCarts : list SavedCart.t;
  currentCartId : option string;
  cartName : string;
  customerName : string;
  inventory : list InventoryItem.t;
  isSaveCartModalOpen : bool;
  isLoadCartModalOpen : bool;
  isCheckoutModalOpen : bool;
  localStorage : Carts.Storage
}.

Definition setCart (v : list CartItem.t) (s : State) : State :=
  mkState v (savedCarts s) (currentCartId s) (cartName s) (customerName s)
          (inventory s) (isSaveCartModalOpen s) (isLoadCartModalOpen s)
          (isCheckoutModalOpen s) (localStorage s).

Definition setSavedCarts (v : list SavedCart.t) (s : State) : State :=
  mkState (cart s) v (currentCartId s) (cartName s) (customerName s)
          (inventory s) (isSaveCartModalOpen s) (isLoadCartModalOpen s)
          (isCheckoutModalOpen s) (localStorage s).

Definition setCurrentCartId (v : option string) (s : State) : State :=
  mkState (cart s) (savedCarts s) v (cartName s) (customerName s)
          (inventory s) (isSaveCartModalOpen s) (isLoadCartModalOpen s)
          (isCheckoutModalOpen s) (localStorage s).

Definition setCartName (v : string) (s : State) : State :=
  mkState (cart s) (savedCarts s) (currentCartId s) v (customerName s)
          (inventory s) (isSaveCartModalOpen s) (isLoadCartModalOpen s)
          (isCheckoutModalOpen s) (localStorage s).

Definition setCustomerName (v : string) (s : State) : State :=
  mkState (cart s) (savedCarts s) (currentCartId s) (cartName s) v
          (inventory s) (isSaveCartModalOpen s) (isLoadCartModalOpen s)
          (isCheckoutModalOpen s) (localStorage s).

Definition setInventory (v : list InventoryItem.t) (s : State) : State :=
  mkState (cart s) (savedCarts s) (currentCartId s) (cartName s)
          (customerName s) v (isSaveCartModalOpen s) (isLoadCartModalOpen s)
          (isCheckoutModalOpen s) (localStorage s).

Definition setIsSaveCartModalOpen (v : bool) (s : State) : State :=
  mkState (cart s) (savedCarts s) (currentCartId s) (cartName s)
          (customerName s) (inventory s) v (isLoadCartModalOpen s)
          (isCheckoutModalOpen s) (localStorage s).

Definition setIsLoadCartModalOpen (v : bool) (s : State) : State :=
  mkState (cart s) (savedCarts s) (currentCartId s) (cartName s)
          (customerName s) (inventory s) (isSaveCartModalOpen s) v
          (isCheckoutModalOpen s) (localStorage s).

Definition setIsCheckoutModalOpen (v : bool) (s : State) : State :=
  mkState (cart s) (savedCarts s) (currentCartId s) (cartName s)
          (customerName s) (inventory s) (isSaveCartModalOpen s)
          (isLoadCartModalOpen s) v (localStorage s).

(** The effect of a library call on the storage slot. *)
Definition setLocalStorage (v : Carts.Storage) (s : State) : State :=
  mkState (cart s) (savedCarts s) (currentCartId s) (cartName s)
          (customerName s) (inventory s) (isSaveCartModalOpen s)
          (isLoadCartModalOpen s) (isCheckoutModalOpen s) v.

(** The [useState] initial values, over a given storage slot. *)
Definition initialState (ls : Carts.Storage) : State :=
  mkState [] [] None "" "" [] false false false ls.

(** ** Availability *)

Definition MS_PER_DAY : Z := 1000 * 60 * 60 * 24.

(** [Math.ceil(a / b)] for integers [a] and [b > 0]. *)
Definition ceilDiv (a b : Z) : Z := - ((- a) / b).

(** [today] is the time stamp of local midnight of the current day. *)
Definition getExpiryStatus (today expiryDate : Z) : ExpiryStatus :=
  let diffTime := expiryDate - today in
  let diffDays := ceilDiv diffTime MS_PER_DAY in
  if diffDays <? 0 then expired
  else if diffDays <=? 7 then near_expiry
  else valid.

(** The body of both [forEach] callbacks of [reservedQuantities]. *)
Definition reserveItem (reservedMap : gmap string Z) (item : CartItem.t)
    : gmap string Z :=
  let productId := CartItem.id item in
  let currentReserved := default 0 (reservedMap !! productId) in
  <[productId := currentReserved + CartItem.quantity item]> reservedMap.

(** [currentCartId && savedCart.id === currentCartId] *)
Definition isCurrentCart (currentCartId : option string) (savedCart : SavedCart.t)
    : bool :=
  truthy currentCartId
  && bool_decide (Some (SavedCart.id savedCart) = currentCartId).

Definition reservedQuantities (savedCarts : list SavedCart.t)
    (cart : list CartItem.t) (currentCartId : option string) : gmap string Z :=
  let reservedMap :=
    fold_left
      (fun reservedMap savedCart =>
         if isCurrentCart currentCartId savedCart then reservedMap
         else fold_left reserveItem (SavedCart.items savedCart) reservedMap)
      savedCarts ∅ in
  fold_left reserveItem cart reservedMap.

Definition isSellable (today : Z) (item : InventoryItem.t) : bool :=
  let status := getExpiryStatus today (InventoryItem.expiry_date item) in
  (InventoryItem.quantity item >? 0)
  && match status with valid | near_expiry => true | expired => false end.

Definition totalInventoryQuantity (today : Z) (inventory : list InventoryItem.t)
    : gmap string Z :=
  fold_left
    (fun quantityMap item =>
       let productId := Product.id (InventoryItem.product item) in
       let currentQuantity := default 0 (quantityMap !! productId) in
       <[productId := currentQuantity + InventoryItem.quantity item]> quantityMap)
    (List.filter (isSellable today) inventory) ∅.

(** [new Map(totalInventoryQuantity)], then one [set] per entry of
    [reservedQuantities]; [forEach] visits each key once, in some order. *)
Definition productInventoryQuantity (totalInventoryQuantity reservedQuantities
    : gmap string Z) : gmap string Z :=
  map_fold
    (fun productId reservedQty quantityMap =>
       let available := default 0 (quantityMap !! productId) in
       <[productId := Z.max 0 (available - reservedQty)]> quantityMap)
    totalInventoryQuantity reservedQuantities.

(** [productInventoryQuantity.get(id) || 0], as every handler and the
    product grid read it, in a state [s] rendered on day [today]. *)
Definition availableQuantity (today : Z) (s : State) (productId : string) : Z :=
  let total := totalInventoryQuantity today (inventory s) in
  let reserved := reservedQuantities (savedCarts s) (cart s) (currentCartId s) in
  default 0 (productInventoryQuantity total reserved !! productId).

(** ** Cart handlers

    A handler maps the state it is called in to the state after its queued
    updates are applied, with the alerts it raised.  Handlers that read the
    availability take the day [today] of the render they close over. *)

Definition Outcome : Type := (State * list Alert)%type.

Definition sameId (productId : string) (item : CartItem.t) : bool :=
  String.eqb (CartItem.id item) productId.

Definition addToCart (today : Z) (product : Product.t) (s : State) : Outcome :=
  let availableQuantity := availableQuantity today s (Product.id product) in
  let prevCart := cart s in
  let existingItem := List.find (sameId (Product.id product)) prevCart in
  let currentCartQuantity :=
    match existingItem with
    | Some item => CartItem.quantity item
    | None => 0
    end in
  let newQuantity := currentCartQuantity + 1 in
  if newQuantity >? availableQuantity then
    (s, [InsufficientInventory availableQuantity newQuantity])
  else
    match existingItem with
    | Some _ =>
        (setCart
           (map (fun item =>
                   if sameId (Product.id product) item
                   then CartItem.withQuantity newQuantity item else item)
                prevCart) s, [])
    | None =>
        (setCart
           (prevCart ++
              [ {| CartItem.id := Product.id product;
                   CartItem.sku := default ""%string (Product.sku product);
                   CartItem.name := Product.name product;
                   CartItem.price := Product.selling_price product;
                   CartItem.quantity := 1 |} ]) s, [])
    end.

(** The [map] callback of [updateQuantity]: [None] is the [null] that the
    following [filter] drops. *)
Definition updateLine (id : string) (delta availableQuantity : Z)
    (item : CartItem.t) : option CartItem.t * list Alert :=
  if sameId id item then
    let newQuantity := CartItem.quantity item + delta in
    if newQuantity <=? 0 then (None, [])
    else if (delta >? 0) && (newQuantity >? availableQuantity) then
      (Some item, [InsufficientInventory availableQuantity newQuantity])
    else (Some (CartItem.withQuantity newQuantity item), [])
  else (Some item, []).

Definition updateQuantity (today : Z) (id : string) (delta : Z) (s : State)
    : Outcome :=
  let availableQuantity := availableQuantity today s id in
  let mapped := map (updateLine id delta availableQuantity) (cart s) in
  (setCart (omap fst mapped) s, concat (map snd mapped)).

Definition removeFromCart (id : string) (s : State) : Outcome :=
  (setCart (List.filter (fun item => negb (sameId id item)) (cart s)) s, []).

(** [cart.length === 0] *)
Definition isEmpty {A} (l : list A) : bool :=
  match l with [] => true | _ => false end.

Definition handleSaveCart (clock : Clock) (s : State) : Outcome :=
  if isEmpty (cart s) then (s, [CartEmpty])
  else if truthy (currentCartId s) then
    let '(updated, ls) :=
      Carts.updateCart clock (default ""%string (currentCartId s)) (cart s)
                       (orUndefined (cartName s)) (localStorage s) in
    let s := setLocalStorage ls s in
    match updated with
    | Some _ =>
        let s := setSavedCarts (Carts.getSavedCarts (localStorage s)) s in
        let s := if truthyStr (cartName s) then setCartName (cartName s) s else s in
        (setIsSaveCartModalOpen false s, [CartUpdated])
    | None => (s, [])
    end
  else (setIsSaveCartModalOpen true s, []).

Definition handleConfirmSaveCart (clock : Clock) (s : State) : Outcome :=
  if isEmpty (cart s) then (s, [])
  else
    let '(saved, ls) :=
      Carts.saveCart clock (cart s) (orUndefined (cartName s)) (localStorage s) in
    let s := setLocalStorage ls s in
    let s := setSavedCarts (Carts.getSavedCarts (localStorage s)) s in
    let s := setCurrentCartId (Some (SavedCart.id saved)) s in
    let s := setCartName "" s in
    (setIsSaveCartModalOpen false s, [CartSaved]).

(** The three updates shared by [handleNewCart] and the clear-cart button. *)
Definition clearCart (s : State) : State :=
  setCartName "" (setCurrentCartId None (setCart [] s)).

Definition handleNewCart (confirm : bool) (s : State) : Outcome :=
  if negb (isEmpty (cart s)) && negb confirm then (s, [])
  else (clearCart s, []).

Definition handleLoadCart (confirm : bool) (savedCart : SavedCart.t) (s : State)
    : Outcome :=
  if negb (isEmpty (cart s)) && negb (truthy (currentCartId s)) && negb confirm
  then (s, [])
  else
    let s := setCart (SavedCart.items savedCart) s in
    let s := setCurrentCartId (Some (SavedCart.id savedCart)) s in
    let s := setCartName (SavedCart.name savedCart) s in
    (setIsLoadCartModalOpen false s, []).

Definition handleDeleteCart (confirm : bool) (cartId : string) (s : State)
    : Outcome :=
  if confirm then
    let '(_, ls) := Carts.deleteCart cartId (localStorage s) in
    let s := setLocalStorage ls s in
    let s := setSavedCarts (Carts.getSavedCarts (localStorage s)) s in
    if bool_decide (currentCartId s = Some cartId)
    then (setCartName "" (setCurrentCartId None s), [])
    else (s, [])
  else (s, []).

Definition handleCheckout (s : State) : Outcome :=
  if isEmpty (cart s) then (s, [])
  else (setIsCheckoutModalOpen true s, []).

Definition handleConfirmCheckout (response : CheckoutResponse) (s : State)
    : Outcome :=
  if isEmpty (cart s) then (s, [])
  else
    match response with
    | Accepted =>
        let s :=
          if truthy (currentCartId s) then
            let '(_, ls) :=
              Carts.deleteCart (default ""%string (currentCartId s))
                               (localStorage s) in
            let s := setLocalStorage ls s in
            let s := setSavedCarts (Carts.getSavedCarts (localStorage s)) s in
            setCartName "" (setCurrentCartId None s)
          else s in
        let s := setCart [] s in
        let s := setCustomerName "" s in
        (setIsCheckoutModalOpen false s, [OrderCreated])
    | NetworkError | Rejected => (s, [OrderFailed])
    end.

(** The Save button.  The cart panel renders it, bound to [handleSaveCart],
    only in the branch of a non-empty cart ([cart.length === 0 ? ... : ...]):
    [None] when there is no button to click. *)
Definition saveButton (clock : Clock) (s : State) : option Outcome :=
  if isEmpty (cart s) then None else Some (handleSaveCart clock s).

(** The mount effect: [setSavedCarts(getSavedCarts())]. *)
Definition mount (s : State) : State :=
  setSavedCarts (Carts.getSavedCarts (localStorage s)) s.

(** ** The page as a transition system

    One event per handler the page binds to a control, plus the page load
    and the arrival of an inventory answer.  A session is the work of one
    tab: nothing else writes the storage slot. *)

Inductive Modal : Type := SaveCartModal | LoadCartModal | CheckoutModal.

Inductive Event : Type :=
  | PageLoad                                  (* first render, then [mount] *)
  | InventoryFetched (items : list InventoryItem.t)
  | AddToCart (today : Z) (product : Product.t)
  | UpdateQuantity (today : Z) (id : string) (delta : Z)
  | RemoveFromCart (id : string)
  | SaveCart (clock : Clock)
  | ConfirmSaveCart (clock : Clock)
  | NewCart (confirm : bool)
  | ClearCart
  | LoadCart (confirm : bool) (index : nat)   (* a button per saved cart *)
  | DeleteCart (confirm : bool) (cartId : string)
  | Checkout
  | ConfirmCheckout (response : CheckoutResponse)
  | TypeCartName (value : string)
  | TypeCustomerName (value : string)
  | ShowModal (which : Modal) (open : bool).

Definition step (ev : Event) (s : State) : Outcome :=
  match ev with
  | PageLoad => (mount (initialState (localStorage s)), [])
  | InventoryFetched items => (setInventory items s, [])
  | AddToCart today product => addToCart today product s
  | UpdateQuantity today id delta => updateQuantity today id delta s
  | RemoveFromCart id => removeFromCart id s
  | SaveCart clock => handleSaveCart clock s
  | ConfirmSaveCart clock => handleConfirmSaveCart clock s
  | NewCart confirm => handleNewCart confirm s
  | ClearCart => (clearCart s, [])
  | LoadCart confirm index =>
      match savedCarts s !! index with
      | Some savedCart => handleLoadCart confirm savedCart s
      | None => (s, [])
      end
  | DeleteCart confirm cartId => handleDeleteCart confirm cartId s
  | Checkout => handleCheckout s
  | ConfirmCheckout response => handleConfirmCheckout response s
  | TypeCartName value => (setCartName value s, [])
  | TypeCustomerName value => (setCustomerName value s, [])
  | ShowModal SaveCartModal open => (setIsSaveCartModalOpen open s, [])
  | ShowModal LoadCartModal open => (setIsLoadCartModalOpen open s, [])
  | ShowModal CheckoutModal open => (setIsCheckoutModalOpen open s, [])
  end.

(** Run a session: the events in order, each on the state the previous one
    left. *)
Definition run (events : list Event) (s : State) : State :=
  fold_left (fun s ev => fst (step ev s)) events s.

(** The states of a session that starts on an empty storage slot. *)
Inductive reachable : State -> Prop :=
  | reachable_init : reachable (initialState [])
  | reachable_step s ev : reachable s -> reachable (fst (step ev s)).

(** ** The quantities of the specification *)

Definition sumZ (l : list Z) : Z := foldr Z.add 0 l.

(** The quantity of product [P] that a list of cart lines holds. *)
Definition reservedQty (items : list CartItem.t) (P : string) : Z :=
  sumZ (map CartItem.quantity (List.filter (sameId P) items)).

(** A stock record counts for [P] when it is a record of [P], its quantity
    is positive and its status is [valid] or [near_expiry]. *)
Definition contributes (today : Z) (P : string) (r : InventoryItem.t) : bool :=
  String.eqb (Product.id (InventoryItem.product r)) P
  && (0 <? InventoryItem.quantity r)
  && match getExpiryStatus today (InventoryItem.expiry_date r) with
     | expired => false
     | valid | near_expiry => true
     end.

Definition totalSellableStock (today : Z) (inventory : list InventoryItem.t)
    (P : string) : Z :=
  sumZ (map InventoryItem.quantity (List.filter (contributes today P) inventory)).

(** The saved carts other than the one whose id is [currentCartId]. *)
Definition otherCarts (savedCarts : list SavedCart.t)
    (currentCartId : option string) : list SavedCart.t :=
  List.filter (fun c => negb (bool_decide (Some (SavedCart.id c) = currentCartId)))
              savedCarts.

Definition reservedByOthers (savedCarts : list SavedCart.t)
    (currentCartId : option string) (P : string) : Z :=
  sumZ (map (fun c => reservedQty (SavedCart.items c) P)
            (otherCarts savedCarts currentCartId)).

(** [Σ unitPrice × quantity] over a list of lines. *)
Definition sumLines (items : list CartItem.t) : Z :=
  sumZ (map (fun item => CartItem.price item * CartItem.quantity item) items).

(** ** Invariants of a session *)

(** One line per product, each of quantity at least one. *)
Definition goodLines (items : list CartItem.t) : Prop :=
  NoDup (map CartItem.id items)
  /\ Forall (fun item => 1 <= CartItem.quantity item) items.

Definition goodSavedCart (c : SavedCart.t) : Prop :=
  SavedCart.id c <> ""%string
  /\ SavedCart.name c <> ""%string
  /\ SavedCart.total c = sumLines (SavedCart.items c)
  /\ goodLines (SavedCart.items c).

Record Inv (s : State) : Prop := {
  inv_synced : savedCarts s = localStorage s;
  inv_current : currentCartId s <> Some ""%string;
  inv_saved : Forall goodSavedCart (localStorage s);
  inv_cart : goodLines (cart s)
}.

(** The state in which cart [X] was never saved and its lines are in the
    live cart. *)
Definition neverSaved (X : SavedCart.t) (s : State) : State :=
  let others :=
    List.filter (fun c => negb (String.eqb (SavedCart.id c) (SavedCart.id X))) in
  setCurrentCartId None
    (setCart (SavedCart.items X)
       (setLocalStorage (others (localStorage s))
          (setSavedCarts (others (savedCarts s)) s))).

(** An [InsufficientInventory] alert was raised. *)
Definition insufficientStock (alerts : list Alert) : Prop :=
  exists available requested, In (InsufficientInventory available requested) alerts.

(** ** A sample session

    One product with a single batch of ten units that expires in thirty
    days; the session is rendered on day [0]. *)

Definition apple : Product.t :=
  {| Product.id := "A"; Product.name := "Apple";
     Product.sku := Some "SKU-A"%string; Product.selling_price := 1000 |}.

Definition tenUnits : list InventoryItem.t :=
  [ {| InventoryItem.product := apple; InventoryItem.quantity := 10;
       InventoryItem.expiry_date := 30 * MS_PER_DAY |} ].

Definition evening : Clock :=
  {| Date_now := 1700000000000;
     toISOString := "2023-11-14T22:13:20.000Z";
     toLocaleString := "15/11/23 05.13" |}.

(** The stock is fetched, then the product tile is clicked [n] times. *)
Definition addApples (n : nat) : State :=
  run (InventoryFetched tenUnits :: replicate n (AddToCart 0 apple))
      (initialState []).

(** Two apples are added and the cart is saved under a default name. *)
Definition parkedSession : list Event :=
  [InventoryFetched tenUnits; AddToCart 0 apple; AddToCart 0 apple;
   SaveCart evening; ConfirmSaveCart evening].

Definition parked : State := run parkedSession (initialState []).

Definition parkedCart : SavedCart.t :=
  {| SavedCart.id := "cart-1700000000000";
     SavedCart.name := "Cart 15/11/23 05.13";
     SavedCart.items :=
       [ {| CartItem.id := "A"; CartItem.sku := "SKU-A"; CartItem.name := "Apple";
            CartItem.price := 1000; CartItem.quantity := 2 |} ];
     SavedCart.total := 2000;
     SavedCart.createdAt := "2023-11-14T22:13:20.000Z";
     SavedCart.updatedAt := "2023-11-14T22:13:20.000Z" |}.

(** After parking, a new cart is started. *)
Definition parkedThenNew : State := run [NewCart true] parked.

(** A state whose [currentCartId] names a cart that is no longer stored (it
    was deleted from another tab) and whose live cart is empty. *)
Definition danglingEmpty : State :=
  mkState [] [] (Some "cart-1700000000000"%string) "" "" [] false false false [].

(** ** The rest of the cashier page *)

(** The page's [total]:
    [cart.reduce((sum, item) => sum + item.price * item.quantity, 0)]. *)
Definition total (cart : list CartItem.t) : Z :=
  fold_left (fun sum item => sum + CartItem.price item * CartItem.quantity item)
            cart 0.

Module DisplayedProduct.
(** [Product & { quantity: number }], an entry of [displayedProducts]. *)
Record t : Type := mk {
  product : Product.t;
  quantity : Z
}.

Definition id (p : t) : string := Product.id (product p).

(** [{ ...p, quantity: q }] *)
Definition withQuantity (q : Z) (p : t) : t :=
  {| product := product p; quantity := q |}.
End DisplayedProduct.

(** [productMap], a [Map] from product id to tile, in insertion order: the
    list of its values, each filed under the id of its product. *)
Definition productMapGet (productId : string) (productMap : list DisplayedProduct.t)
    : option DisplayedProduct.t :=
  List.find (fun p => String.eqb (DisplayedProduct.id p) productId) productMap.

(** [productMap.set(v.id, v)]: the value of a key that is present is replaced
    where it stands, a new key goes last. *)
Fixpoint productMapSet (v : DisplayedProduct.t) (productMap : list DisplayedProduct.t)
    : list DisplayedProduct.t :=
  match productMap with
  | [] => [v]
  | p :: rest =>
      if String.eqb (DisplayedProduct.id p) (DisplayedProduct.id v)
      then v :: rest
      else p :: productMapSet v rest
  end.

(** [q || 0] for a number [q]. *)
Definition orZero (q : Z) : Z := if Z.eqb q 0 then 0 else q.

(** The product data that a new tile takes from a batch:
    [{ id, name, sku, selling_price: item.product.selling_price || 0 }]. *)
Definition tileProduct (p : Product.t) : Product.t :=
  {| Product.id := Product.id p; Product.name := Product.name p;
     Product.sku := Product.sku p;
     Product.selling_price := orZero (Product.selling_price p) |}.

(** The [inventoryData.forEach] callback of [fetchInventory] and
    [loadMoreInventory]; [existing.quantity += item.quantity] updates the
    entry where it stands. *)
Definition groupItem (productMap : list DisplayedProduct.t) (item : InventoryItem.t)
    : list DisplayedProduct.t :=
  let productId := Product.id (InventoryItem.product item) in
  match productMapGet productId productMap with
  | Some existing =>
      productMapSet
        (DisplayedProduct.withQuantity
           (DisplayedProduct.quantity existing + InventoryItem.quantity item)
           existing)
        productMap
  | None =>
      productMapSet
        {| DisplayedProduct.product := tileProduct (InventoryItem.product item);
           DisplayedProduct.quantity := InventoryItem.quantity item |}
        productMap
  end.

Definition LIMIT : nat := 100.


Module Catalog.
(** The state of the inventory feed.  [hasMoreInventory] and
    [inventoryOffset] stand for the state variables and for the refs of the
    same names, which are always written together.  A request and the
    handling of its answer are one step, so the in-flight flags are down
    whenever a handler starts. *)
Record t : Type := mk {
  displayedProducts : list DisplayedProduct.t;
  inventory : list InventoryItem.t;
  hasMoreInventory : bool;
  inventoryOffset : nat
}.
End Catalog.

(** [handleSearch], up to the change of the search query. *)
Definition handleSearch (c : Catalog.t) : Catalog.t :=
  {| Catalog.displayedProducts := []; Catalog.inventory := [];
     Catalog.hasMoreInventory := true; Catalog.inventoryOffset := 0 |}.

(** The effect [fetchInventory].  [blank] is [!searchQuery.trim()];
    [response] is the list read from the answer, [None] when the request
    fails or is not [ok]. *)
Definition fetchInventory (blank : bool) (response : option (list InventoryItem.t))
    (c : Catalog.t) : Catalog.t :=
  if blank then
    {| Catalog.displayedProducts := []; Catalog.inventory := [];
       Catalog.hasMoreInventory := Catalog.hasMoreInventory c;
       Catalog.inventoryOffset := Catalog.inventoryOffset c |}
  else
    match response with
    | Some inventoryData =>
        {| Catalog.displayedProducts := fold_left groupItem inventoryData [];
           Catalog.inventory := inventoryData;
           Catalog.hasMoreInventory := Nat.eqb (length inventoryData) LIMIT;
           Catalog.inventoryOffset := length inventoryData |}
    | None => c
    end.

Definition loadMoreInventory (response : option (list InventoryItem.t))
    (c : Catalog.t) : Catalog.t :=
  if negb (Catalog.hasMoreInventory c) then c
  else
    match response with
    | Some inventoryData =>
        if isEmpty inventoryData then
          {| Catalog.displayedProducts := Catalog.displayedProducts c;
             Catalog.inventory := Catalog.inventory c;
             Catalog.hasMoreInventory := false;
             Catalog.inventoryOffset := Catalog.inventoryOffset c |}
        else
          let productMap :=
            fold_left
              (fun productMap product =>
                 productMapSet
                   (DisplayedProduct.withQuantity
                      (orZero (DisplayedProduct.quantity product)) product)
                   productMap)
              (Catalog.displayedProducts c) [] in
          {| Catalog.displayedProducts := fold_left groupItem inventoryData productMap;
             Catalog.inventory := Catalog.inventory c ++ inventoryData;
             Catalog.hasMoreInventory := Nat.eqb (length inventoryData) LIMIT;
             Catalog.inventoryOffset :=
               (Catalog.inventoryOffset c + length inventoryData)%nat |}
    | None => c
    end.

(** [filteredProducts]: each tile with the available quantity in place of
    the grouped one. *)
Definition filteredProducts (today : Z) (s : State)
    (displayedProducts : list DisplayedProduct.t) : list DisplayedProduct.t :=
  map (fun product =>
         let availableQty :=
           availableQuantity today s (DisplayedProduct.id product) in
         DisplayedProduct.withQuantity availableQty product)
      displayedProducts.

(** ** A server behind the inventory feed

    The answer to [GET /api/inventories?limit=&offset=] over a fixed result
    list: the [limit] records that follow the first [offset]. *)

Definition servePage (records : list InventoryItem.t) (offset : nat)
    : option (list InventoryItem.t) :=
  Some (take LIMIT (drop offset records)).

(** A search whose effect runs (the query is new and not blank), then [n]
    scrolls to the bottom of the grid. *)
Fixpoint browse (records : list InventoryItem.t) (n : nat) (c : Catalog.t)
    : Catalog.t :=
  match n with
  | O => fetchInventory false (servePage records 0) (handleSearch c)
  | S n' =>
      let c' := browse records n' c in
      loadMoreInventory (servePage records (Catalog.inventoryOffset c')) c'
  end.

Module SearchPage.
(** The inventory feed with the search query that keys its effect. *)
Record t : Type := mk {
  catalog : Catalog.t;
  searchQuery : string
}.
End SearchPage.

(** A click on Search: [handleSearch], then the effect on [searchQuery].
    [query] is [searchInput.trim()]; the effect [fetchInventory] only runs
    when it differs from the query in the state, with [blank] and
    [response] as for [fetchInventory]. *)
Definition search (query : string) (blank : bool)
    (response : option (list InventoryItem.t)) (p : SearchPage.t) : SearchPage.t :=
  let c := handleSearch (SearchPage.catalog p) in
  if String.eqb query (SearchPage.searchQuery p) then
    {| SearchPage.catalog := c;
       SearchPage.searchQuery := SearchPage.searchQuery p |}
  else
    {| SearchPage.catalog := fetchInventory blank response c;
       SearchPage.searchQuery := query |}.

(** [n] scrolls to the bottom of the grid, each answered by the server. *)
Fixpoint scroll (records : list InventoryItem.t) (n : nat) (c : Catalog.t)
    : Catalog.t :=
  match n with
  | O => c
  | S n' =>
      let c' := scroll records n' c in
      loadMoreInventory (servePage records (Catalog.inventoryOffset c')) c'
  end.

(** A click on Search, then [n] scrolls. *)
Definition searchAndScroll (records : list InventoryItem.t) (query : string)
    (blank : bool) (n : nat) (p : SearchPage.t) : Catalog.t :=
  scroll records n
    (SearchPage.catalog (search query blank (servePage records 0) p)).

(** What one paging step keeps true over a fixed result list. *)
Record paged (records : list InventoryItem.t) (c : Catalog.t) : Prop := {
  paged_prefix : Catalog.inventory c = take (Catalog.inventoryOffset c) records;
  paged_offset : (Catalog.inventoryOffset c <= length records)%nat;
  paged_done : Catalog.hasMoreInventory c = false -> Catalog.inventory c = records;
  paged_tiles :
    Catalog.displayedProducts c = fold_left groupItem (Catalog.inventory c) []
}.

(** The quantities of all batches of [P], expired or not. *)
Definition batchQuantities (P : string) (records : list InventoryItem.t) : list Z :=
  map InventoryItem.quantity
      (List.filter (fun r => String.eqb (Product.id (InventoryItem.product r)) P)
                   records).

(** The storage after the cart of id [cartId] has been taken out. *)
Definition withoutCart (cartId : string) (carts : list SavedCart.t)
    : list SavedCart.t :=
  List.filter (fun c => negb (String.eqb (SavedCart.id c) cartId)) carts.

(** What the saved carts of id [cartId] hold of product [P]. *)
Definition reservedByCart (cartId : string) (carts : list SavedCart.t) (P : string)
    : Z :=
  sumZ (map (fun c => reservedQty (SavedCart.items c) P)
            (List.filter (fun c => String.eqb (SavedCart.id c) cartId) carts)).

(** The stored carts have lines, and the current cart id names a stored
    cart. *)
Definition anchored (s : State) : Prop :=
  Forall (fun c => SavedCart.items c <> []) (localStorage s)
  /\ forall X, currentCartId s = Some X -> X ∈ map SavedCart.id (localStorage s).

(** [X] with [updatedAt] set to [now]. *)
Definition touched (now : string) (X : SavedCart.t) : SavedCart.t :=
  {| SavedCart.id := SavedCart.id X; SavedCart.name := SavedCart.name X;
     SavedCart.items := SavedCart.items X; SavedCart.total := SavedCart.total X;
     SavedCart.createdAt := SavedCart.createdAt X; SavedCart.updatedAt := now |}.

Module CheckoutLine.
(** An element of [items] in the body of the checkout request. *)
Record t : Type := mk {
  product_id : string;
  quantity : Z
}.
End CheckoutLine.

(** The [items] of the body that [handleConfirmCheckout] posts; its
    [grand_total] is [total cart]. *)
Definition checkoutItems (cart : list CartItem.t) : list CheckoutLine.t :=
  map (fun item =>
         {| CheckoutLine.product_id := CartItem.id item;
            CheckoutLine.quantity := CartItem.quantity item |})
      cart.

(** * Proofs *)

(* [naive_solver] clears hypotheses that it may already have consumed. *)
#[local] Set Warnings "-clear-no-such-hyp".

Create HintDb cashier.

(** Unfold the state setters and read the fields back. *)
Ltac setters :=
  unfold clearCart, mount, initialState, setCart, setSavedCarts,
    setCurrentCartId, setCartName, setCustomerName, setInventory,
    setIsSaveCartModalOpen, setIsLoadCartModalOpen, setIsCheckoutModalOpen,
    setLocalStorage, Carts.getSavedCarts in *;
  simpl in *.

Lemma eqb_decide (a b : string) : String.eqb a b = bool_decide (a = b).
Proof.
  destruct (String.eqb_spec a b) as [->|Hne].
  - by rewrite bool_decide_eq_true_2.
  - by rewrite bool_decide_eq_false_2.
Qed.

Lemma truthy_Some (o : option string) :
  truthy o = true <-> exists x, o = Some x /\ x <> ""%string.
Proof.
  destruct o as [x|]; simpl; unfold truthyStr; rewrite ?eqb_decide.
  - rewrite negb_true_iff, bool_decide_eq_false. naive_solver.
  - naive_solver.
Qed.

(** ** Maps built by accumulation *)

Section Accumulate.
Context {A : Type} (key : A -> string) (val : A -> Z).
Context (f : gmap string Z -> A -> gmap string Z).
Hypothesis f_eq :
  forall m x, f m x = <[key x := default 0 (m !! key x) + val x]> m.

Let matching (P : string) (l : list A) : list A :=
  List.filter (fun x => String.eqb (key x) P) l.

Lemma accumulate_lookup (l : list A) (m : gmap string Z) (P : string) :
  default 0 (fold_left f l m !! P)
  = default 0 (m !! P) + sumZ (map val (matching P l)).
Proof.
  revert m. induction l as [|x l IH]; intros m; simpl.
  - unfold sumZ. simpl. lia.
  - rewrite IH, f_eq. subst matching. simpl.
    destruct (String.eqb_spec (key x) P) as [->|Hne]; simpl.
    + rewrite lookup_insert_eq. simpl. lia.
    + by rewrite lookup_insert_ne.
Qed.

End Accumulate.

Lemma sumZ_nonneg (l : list Z) : Forall (fun x => 0 <= x) l -> 0 <= sumZ l.
Proof. unfold sumZ. induction 1; simpl; lia. Qed.

Lemma reserveItem_lookup (items : list CartItem.t) (m : gmap string Z) (P : string) :
  default 0 (fold_left reserveItem items m !! P)
  = default 0 (m !! P) + reservedQty items P.
Proof.
  unfold reservedQty, sameId.
  apply (accumulate_lookup CartItem.id CartItem.quantity reserveItem).
  reflexivity.
Qed.

(** What the first loop of [reservedQuantities] leaves in the map. *)
Lemma reserved_savedCarts_lookup (carts : list SavedCart.t) (cid : option string)
    (m : gmap string Z) (P : string) :
  default 0
    (fold_left
       (fun reservedMap savedCart =>
          if isCurrentCart cid savedCart then reservedMap
          else fold_left reserveItem (SavedCart.items savedCart) reservedMap)
       carts m !! P)
  = default 0 (m !! P)
    + sumZ (map (fun c => reservedQty (SavedCart.items c) P)
                (List.filter (fun c => negb (isCurrentCart cid c)) carts)).
Proof.
  revert m. induction carts as [|c carts IH]; intros m; simpl; [lia|].
  rewrite IH. destruct (isCurrentCart cid c); simpl; [done|].
  rewrite reserveItem_lookup. lia.
Qed.

Lemma reservedQuantities_lookup (carts : list SavedCart.t)
    (items : list CartItem.t) (cid : option string) (P : string) :
  default 0 (reservedQuantities carts items cid !! P)
  = sumZ (map (fun c => reservedQty (SavedCart.items c) P)
              (List.filter (fun c => negb (isCurrentCart cid c)) carts))
    + reservedQty items P.
Proof.
  unfold reservedQuantities.
  rewrite reserveItem_lookup, reserved_savedCarts_lookup, lookup_empty. simpl. lia.
Qed.

(** With a well-formed [currentCartId] the truthiness guard of the source
    is the plain comparison of ids. *)
Lemma isCurrentCart_wf (cid : option string) (c : SavedCart.t) :
  cid <> Some ""%string ->
  isCurrentCart cid c = bool_decide (Some (SavedCart.id c) = cid).
Proof.
  intros Hwf. unfold isCurrentCart.
  destruct cid as [x|]; simpl.
  - unfold truthyStr. rewrite eqb_decide.
    rewrite (bool_decide_eq_false_2 (x = ""%string)); [done|congruence].
  - done.
Qed.

Lemma reservedQuantities_others (carts : list SavedCart.t)
    (items : list CartItem.t) (cid : option string) (P : string) :
  cid <> Some ""%string ->
  default 0 (reservedQuantities carts items cid !! P)
  = reservedByOthers carts cid P + reservedQty items P.
Proof.
  intros Hwf. rewrite reservedQuantities_lookup.
  unfold reservedByOthers, otherCarts. do 3 f_equal.
  apply List.filter_ext. intros c. by rewrite isCurrentCart_wf.
Qed.

Lemma sellable_matching (today : Z) (inv : list InventoryItem.t) (P : string) :
  List.filter (fun r => String.eqb (Product.id (InventoryItem.product r)) P)
              (List.filter (isSellable today) inv)
  = List.filter (contributes today P) inv.
Proof.
  induction inv as [|r inv IH]; simpl; [done|].
  assert (contributes today P r
          = String.eqb (Product.id (InventoryItem.product r)) P
            && isSellable today r) as ->.
  { unfold contributes, isSellable. by rewrite Z.gtb_ltb, andb_assoc. }
  rewrite <- IH.
  destruct (isSellable today r); simpl;
    by destruct (String.eqb (Product.id (InventoryItem.product r)) P).
Qed.

Lemma totalInventoryQuantity_lookup (today : Z) (inv : list InventoryItem.t)
    (P : string) :
  default 0 (totalInventoryQuantity today inv !! P) = totalSellableStock today inv P.
Proof.
  unfold totalInventoryQuantity.
  rewrite (accumulate_lookup (fun r => Product.id (InventoryItem.product r))
             InventoryItem.quantity) by reflexivity.
  rewrite lookup_empty, sellable_matching. reflexivity.
Qed.

Lemma totalSellableStock_nonneg (today : Z) (inv : list InventoryItem.t)
    (P : string) :
  0 <= totalSellableStock today inv P.
Proof.
  unfold totalSellableStock. apply sumZ_nonneg.
  apply Forall_forall. intros q Hq.
  apply list_elem_of_In, in_map_iff in Hq as (r & <- & Hr).
  apply filter_In in Hr as [_ Hr]. unfold contributes in Hr.
  destruct (Z.ltb_spec 0 (InventoryItem.quantity r)); [lia|].
  by rewrite andb_false_r in Hr.
Qed.

Lemma productInventoryQuantity_lookup (total reserved : gmap string Z) (P : string) :
  productInventoryQuantity total reserved !! P
  = match reserved !! P with
    | Some r => Some (Z.max 0 (default 0 (total !! P) - r))
    | None => total !! P
    end.
Proof.
  unfold productInventoryQuantity.
  apply (map_fold_weak_ind
           (fun result (seen : gmap string Z) =>
              result !! P
              = match seen !! P with
                | Some r => Some (Z.max 0 (default 0 (total !! P) - r))
                | None => total !! P
                end)).
  - by rewrite lookup_empty.
  - intros i x m r Hfresh IH. simpl.
    destruct (decide (i = P)) as [->|Hne].
    + rewrite !lookup_insert_eq. rewrite IH, Hfresh. done.
    + by rewrite !lookup_insert_ne.
Qed.

(** The closed form of the availability, for a well-formed cart id. *)
Lemma availableQuantity_closed (today : Z) (s : State) (P : string) :
  currentCartId s <> Some ""%string ->
  availableQuantity today s P
  = Z.max 0 (totalSellableStock today (inventory s) P
             - reservedByOthers (savedCarts s) (currentCartId s) P
             - reservedQty (cart s) P).
Proof.
  intros Hwf. unfold availableQuantity.
  rewrite productInventoryQuantity_lookup.
  pose proof (reservedQuantities_others (savedCarts s) (cart s) _ P Hwf) as Hres.
  pose proof (totalInventoryQuantity_lookup today (inventory s) P) as Htot.
  pose proof (totalSellableStock_nonneg today (inventory s) P) as Hpos.
  destruct (reservedQuantities (savedCarts s) (cart s) (currentCartId s) !! P)
    as [r|] eqn:Hr; simpl in *.
  - rewrite Htot. f_equal. lia.
  - rewrite Htot. lia.
Qed.

(** ** Cart lines *)

Lemma reduceTotal_sumLines (items : list CartItem.t) :
  Carts.reduceTotal items = sumLines items.
Proof.
  unfold Carts.reduceTotal, sumLines, sumZ.
  assert (forall a,
    fold_left (fun sum item => sum + CartItem.price item * CartItem.quantity item)
              items a
    = a + foldr Z.add 0
            (map (fun item => CartItem.price item * CartItem.quantity item) items))
    as H; [|by rewrite H].
  induction items as [|x items IH]; intros a; simpl; [lia|].
  rewrite IH. lia.
Qed.

Lemma goodLines_nil : goodLines [].
Proof. split; constructor. Qed.

Lemma filter_ids_subset (p : CartItem.t -> bool) (l : list CartItem.t) (i : string) :
  i ∈ map CartItem.id (List.filter p l) -> i ∈ map CartItem.id l.
Proof.
  induction l as [|x l IH]; simpl; [done|].
  destruct (p x); simpl; rewrite ?elem_of_cons; naive_solver.
Qed.

Lemma goodLines_filter (p : CartItem.t -> bool) (l : list CartItem.t) :
  goodLines l -> goodLines (List.filter p l).
Proof.
  intros [Hnd Hq]. split.
  - induction l as [|x l IH]; simpl; [constructor|].
    apply NoDup_cons in Hnd as [Hx Hnd]. apply Forall_cons in Hq as [_ Hq].
    destruct (p x); simpl; [|by apply IH].
    apply NoDup_cons. split; [|by apply IH].
    intros Hin. by apply Hx, (filter_ids_subset p).
  - apply Forall_forall. intros x Hx.
    apply list_elem_of_In, filter_In in Hx as [Hx _].
    by apply (proj1 (Forall_forall _ _) Hq), list_elem_of_In.
Qed.

#[local] Hint Resolve goodLines_nil goodLines_filter : cashier.

Lemma find_sameId_None (P : string) (l : list CartItem.t) :
  List.find (sameId P) l = None -> P ∉ map CartItem.id l.
Proof.
  intros Hfind Hin. apply list_elem_of_In, in_map_iff in Hin as (x & Hid & Hx).
  pose proof (find_none _ _ Hfind x Hx) as Hno. unfold sameId in Hno.
  rewrite Hid, String.eqb_refl in Hno. done.
Qed.

Lemma addToCart_goodLines (today : Z) (product : Product.t) (s : State) :
  goodLines (cart s) -> goodLines (cart (fst (addToCart today product s))).
Proof.
  intros [Hnd Hq]. unfold addToCart.
  destruct (List.find (sameId (Product.id product)) (cart s)) as [found|] eqn:Hfind.
  - destruct (_ >? _); simpl; [done|].
    apply find_some in Hfind as [Hin _].
    pose proof (proj1 (Forall_forall _ _) Hq found
                  (proj2 (list_elem_of_In _ _) Hin)) as Hfq.
    simpl in Hfq.
    split.
    + rewrite map_map.
      erewrite map_ext; [exact Hnd|]. intros x. simpl.
      by destruct (sameId _ x).
    + apply Forall_forall. intros y Hy.
      apply list_elem_of_In, in_map_iff in Hy as (x & <- & Hx).
      destruct (sameId _ x); simpl; [lia|].
      by apply (proj1 (Forall_forall _ _) Hq), list_elem_of_In.
  - destruct (_ >? _); simpl; [done|].
    apply find_sameId_None in Hfind. split.
    + rewrite map_app. simpl. apply NoDup_app. split; [done|].
      split; [|apply NoDup_singleton].
      intros i Hi Hi'. apply list_elem_of_singleton in Hi'. by subst.
    + apply Forall_app. split; [done|]. repeat constructor. simpl. lia.
Qed.

Section UpdateLines.
Context (id : string) (delta availableQuantity : Z).

Local Abbreviation updated l :=
  (omap fst (map (updateLine id delta availableQuantity) l)).

Lemma updateLine_cases (item : CartItem.t) :
  match fst (updateLine id delta availableQuantity item) with
  | None => sameId id item = true /\ CartItem.quantity item + delta <= 0
  | Some item' =>
      CartItem.id item' = CartItem.id item
      /\ (item' = item
          \/ (sameId id item = true
              /\ 0 < CartItem.quantity item + delta
              /\ item' = CartItem.withQuantity (CartItem.quantity item + delta) item))
  end.
Proof.
  unfold updateLine.
  destruct (sameId id item); simpl; [|by auto].
  destruct (Z.leb_spec (CartItem.quantity item + delta) 0); simpl; [by auto|].
  destruct (_ && _); simpl; auto.
Qed.

Lemma updated_ids_subset (l : list CartItem.t) (i : string) :
  i ∈ map CartItem.id (updated l) -> i ∈ map CartItem.id l.
Proof.
  induction l as [|x l IH]; simpl; [done|].
  pose proof (updateLine_cases x) as Hx.
  destruct (fst (updateLine id delta availableQuantity x)) as [x'|]; simpl.
  - destruct Hx as [Hid _]. rewrite !elem_of_cons, Hid. naive_solver.
  - rewrite elem_of_cons. naive_solver.
Qed.

Lemma updated_goodLines (l : list CartItem.t) :
  goodLines l -> goodLines (updated l).
Proof.
  intros [Hnd Hq]. split.
  - induction l as [|x l IH]; [constructor|].
    simpl in Hnd. apply NoDup_cons in Hnd as [Hx Hnd].
    apply Forall_cons in Hq as [_ Hq].
    pose proof (updateLine_cases x) as Hc. simpl.
    destruct (fst (updateLine id delta availableQuantity x)) as [x'|]; simpl;
      [|by apply IH].
    destruct Hc as [Hid _]. apply NoDup_cons. split; [|by apply IH].
    rewrite Hid. intros Hin. by apply Hx, updated_ids_subset.
  - induction Hq as [|x l Hx Hq IH]; simpl; [constructor|].
    apply NoDup_cons in Hnd as [_ Hnd].
    pose proof (updateLine_cases x) as Hc.
    destruct (fst (updateLine id delta availableQuantity x)) as [x'|]; simpl;
      [|by apply IH].
    constructor; [|by apply IH].
    destruct Hc as [_ [->|(_ & Hpos & ->)]]; simpl; lia.
Qed.
End UpdateLines.

#[local] Hint Resolve addToCart_goodLines updated_goodLines : cashier.

(** ** The saved-cart library *)

Lemma findIndex_Some {A} (p : A -> bool) (l : list A) (i : nat) :
  Carts.findIndex p l = Some i -> exists x, l !! i = Some x /\ p x = true.
Proof.
  revert i. induction l as [|y l IH]; intros i; simpl; [done|].
  destruct (p y) eqn:Hy.
  - intros [= <-]. by exists y.
  - destruct (Carts.findIndex p l) as [j|]; simpl; [|done].
    intros [= <-]. by apply IH.
Qed.

Lemma findIndex_find {A} (p : A -> bool) (l : list A) (i : nat) :
  Carts.findIndex p l = Some i ->
  exists x, l !! i = Some x /\ List.find p l = Some x.
Proof.
  revert i. induction l as [|y l IH]; intros i; simpl; [done|].
  destruct (p y) eqn:Hy.
  - intros [= <-]. by exists y.
  - destruct (Carts.findIndex p l) as [j|]; simpl; [|done].
    intros [= <-]. by apply IH.
Qed.

Lemma find_insert_first {A} (p : A -> bool) (l : list A) (i : nat) (u : A) :
  Carts.findIndex p l = Some i -> p u = true ->
  List.find p (<[i := u]> l) = Some u.
Proof.
  revert i. induction l as [|y l IH]; intros i; simpl; [done|].
  destruct (p y) eqn:Hy.
  - intros [= <-] Hu. simpl. by rewrite Hu.
  - destruct (Carts.findIndex p l) as [j|]; simpl; [|done].
    intros [= <-] Hu. simpl. rewrite Hy. by apply IH.
Qed.

Lemma find_findIndex {A} (p : A -> bool) (l : list A) (x : A) :
  List.find p l = Some x ->
  exists i, Carts.findIndex p l = Some i /\ l !! i = Some x.
Proof.
  induction l as [|y l IH]; simpl; [done|].
  destruct (p y).
  - intros [= ->]. by exists O.
  - intros (i & Hi & Hx)%IH. exists (S i). by rewrite Hi.
Qed.

Lemma find_None_findIndex {A} (p : A -> bool) (l : list A) :
  List.find p l = None -> Carts.findIndex p l = None.
Proof.
  induction l as [|y l IH]; simpl; [done|].
  destruct (p y); [done|]. intros H. by rewrite (IH H).
Qed.

(** The record that [updateCart] builds from the stored entry [old]. *)
Lemma updateCart_spec (clock : Clock) (cartId : string) (items : list CartItem.t)
    (name : option string) (ls : Carts.Storage) :
  match Carts.findIndex (fun c => String.eqb (SavedCart.id c) cartId) ls with
  | None => Carts.updateCart clock cartId items name ls = (None, ls)
  | Some i =>
      exists old,
        ls !! i = Some old /\ SavedCart.id old = cartId
        /\ Carts.updateCart clock cartId items name ls
           = (Some {| SavedCart.id := SavedCart.id old;
                      SavedCart.name :=
                        if truthy name then default ""%string name
                        else SavedCart.name old;
                      SavedCart.items := items;
                      SavedCart.total := Carts.reduceTotal items;
                      SavedCart.createdAt := SavedCart.createdAt old;
                      SavedCart.updatedAt := toISOString clock |},
              <[i := {| SavedCart.id := SavedCart.id old;
                        SavedCart.name :=
                          if truthy name then default ""%string name
                          else SavedCart.name old;
                        SavedCart.items := items;
                        SavedCart.total := Carts.reduceTotal items;
                        SavedCart.createdAt := SavedCart.createdAt old;
                        SavedCart.updatedAt := toISOString clock |}]> ls)
  end.
Proof.
  unfold Carts.updateCart, Carts.getSavedCarts.
  destruct (Carts.findIndex _ ls) as [i|] eqn:Hi; [|done].
  apply findIndex_Some in Hi as (old & Hold & Hid).
  exists old. rewrite Hold. by apply String.eqb_eq in Hid.
Qed.

Lemma truthy_default (name : option string) :
  truthy name = true -> default ""%string name <> ""%string.
Proof. intros (x & -> & Hx)%truthy_Some. done. Qed.

Lemma cart_id_nonempty (n : N) : ("cart-" ++ Carts.showN n)%string <> ""%string.
Proof. done. Qed.

Lemma saveCart_good (clock : Clock) (items : list CartItem.t)
    (name : option string) (ls : Carts.Storage) :
  goodLines items ->
  goodSavedCart (fst (Carts.saveCart clock items name ls)).
Proof.
  intros Hitems. unfold Carts.saveCart. simpl. repeat split; simpl.
  - apply cart_id_nonempty.
  - destruct (truthy name) eqn:Hname; [by apply truthy_default|done].
  - apply reduceTotal_sumLines.
  - apply Hitems.
  - apply Hitems.
Qed.

Lemma updateCart_good (clock : Clock) (cartId : string) (items : list CartItem.t)
    (name : option string) (ls : Carts.Storage) :
  goodLines items -> Forall goodSavedCart ls ->
  Forall goodSavedCart (snd (Carts.updateCart clock cartId items name ls)).
Proof.
  intros Hitems Hls. pose proof (updateCart_spec clock cartId items name ls) as H.
  destruct (Carts.findIndex _ ls) as [i|]; [|by rewrite H].
  destruct H as (old & Hold & _ & ->). simpl.
  apply Forall_insert; [done|].
  pose proof (Forall_lookup_1 _ _ _ _ Hls Hold) as (Hid & Hname & _ & _).
  repeat split; simpl; try apply Hitems; try done.
  - destruct (truthy name) eqn:Hn; [by apply truthy_default|done].
  - apply reduceTotal_sumLines.
Qed.

Lemma deleteCart_good (cartId : string) (ls : Carts.Storage) :
  Forall goodSavedCart ls ->
  Forall goodSavedCart (snd (Carts.deleteCart cartId ls)).
Proof.
  intros Hls. simpl. unfold Carts.getSavedCarts.
  apply Forall_forall. intros c Hc.
  apply list_elem_of_In, filter_In in Hc as [Hc _].
  by apply (proj1 (Forall_forall _ _) Hls), list_elem_of_In.
Qed.

Lemma deleteCart_gone (cartId : string) (ls : Carts.Storage) (c : SavedCart.t) :
  c ∈ snd (Carts.deleteCart cartId ls) -> SavedCart.id c <> cartId.
Proof.
  simpl. intros Hc. apply list_elem_of_In, filter_In in Hc as [_ Hc].
  apply negb_true_iff in Hc. by apply String.eqb_neq.
Qed.

(** ** The session invariant *)

Lemma Inv_init : Inv (initialState []).
Proof. split; simpl; [done|done|constructor|auto with cashier]. Qed.

Lemma Inv_setCart (items : list CartItem.t) (s : State) :
  goodLines items -> Inv s -> Inv (setCart items s).
Proof. intros Hitems [H1 H2 H3 H4]. by split. Qed.

Lemma Inv_frame (s s' : State) :
  savedCarts s' = savedCarts s -> localStorage s' = localStorage s ->
  currentCartId s' = currentCartId s -> cart s' = cart s ->
  Inv s -> Inv s'.
Proof.
  intros E1 E2 E3 E4 [H1 H2 H3 H4].
  split; rewrite ?E1, ?E2, ?E3, ?E4; done.
Qed.

Lemma addToCart_setCart (today : Z) (product : Product.t) (s : State) :
  fst (addToCart today product s)
  = setCart (cart (fst (addToCart today product s))) s.
Proof.
  unfold addToCart. destruct (List.find _ _); destruct (_ >? _); simpl; try done.
  all: by destruct s.
Qed.

Lemma updateCart_None (clock : Clock) (cartId : string) (items : list CartItem.t)
    (name : option string) (ls ls' : Carts.Storage) :
  Carts.updateCart clock cartId items name ls = (None, ls') -> ls' = ls.
Proof.
  pose proof (updateCart_spec clock cartId items name ls) as H.
  destruct (Carts.findIndex _ ls) as [i|].
  - destruct H as (old & _ & _ & ->). done.
  - rewrite H. by intros [= <-].
Qed.

Lemma handleSaveCart_Inv (clock : Clock) (s : State) :
  Inv s -> Inv (fst (handleSaveCart clock s)).
Proof.
  intros HI. unfold handleSaveCart.
  destruct (isEmpty (cart s)); [done|].
  destruct (truthy (currentCartId s)); [|by eapply Inv_frame; [..|exact HI]].
  pose proof (updateCart_good clock (default ""%string (currentCartId s)) (cart s)
                (orUndefined (cartName s)) (localStorage s)
                (inv_cart s HI) (inv_saved s HI)) as Hgood.
  destruct (Carts.updateCart _ _ _ _ _) as [[u|] ls] eqn:Hupd; simpl in *.
  - destruct HI as [H1 H2 H3 H4].
    destruct (truthyStr (cartName s)); split; setters; done.
  - apply updateCart_None in Hupd as ->.
    by eapply Inv_frame; [..|exact HI].
Qed.

Lemma handleConfirmSaveCart_Inv (clock : Clock) (s : State) :
  Inv s -> Inv (fst (handleConfirmSaveCart clock s)).
Proof.
  intros HI. unfold handleConfirmSaveCart.
  destruct (isEmpty (cart s)); [done|].
  pose proof (saveCart_good clock (cart s) (orUndefined (cartName s))
                (localStorage s) (inv_cart s HI)) as Hgood.
  destruct HI as [H1 H2 H3 H4]. split; setters; try done.
  by constructor.
Qed.

Lemma handleLoadCart_Inv (confirm : bool) (c : SavedCart.t) (s : State) :
  c ∈ savedCarts s -> Inv s -> Inv (fst (handleLoadCart confirm c s)).
Proof.
  intros Hc HI. unfold handleLoadCart.
  destruct (_ && _); [done|].
  destruct HI as [H1 H2 H3 H4]. rewrite H1 in Hc.
  pose proof (proj1 (Forall_forall _ _) H3 c Hc) as (Hid & _ & _ & Hlines).
  split; setters; try done. congruence.
Qed.

Lemma handleDeleteCart_Inv (confirm : bool) (cartId : string) (s : State) :
  Inv s -> Inv (fst (handleDeleteCart confirm cartId s)).
Proof.
  intros HI. unfold handleDeleteCart. destruct confirm; [|done].
  pose proof (deleteCart_good cartId (localStorage s) (inv_saved s HI)) as Hgood.
  destruct HI as [H1 H2 H3 H4].
  simpl. destruct (bool_decide _); split; setters; done.
Qed.

Lemma handleConfirmCheckout_Inv (response : CheckoutResponse) (s : State) :
  Inv s -> Inv (fst (handleConfirmCheckout response s)).
Proof.
  intros HI. unfold handleConfirmCheckout.
  destruct (isEmpty (cart s)); [done|].
  destruct response; try done.
  pose proof (deleteCart_good (default ""%string (currentCartId s))
                (localStorage s) (inv_saved s HI)) as Hgood.
  destruct HI as [H1 H2 H3 H4].
  destruct (truthy (currentCartId s)); split; setters; try done.
  all: auto with cashier.
Qed.

Lemma step_Inv (ev : Event) (s : State) : Inv s -> Inv (fst (step ev s)).
Proof.
  intros HI. destruct ev; simpl.
  - destruct HI as [H1 H2 H3 H4]. split; setters; try done. auto with cashier.
  - by eapply Inv_frame; [..|exact HI].
  - rewrite addToCart_setCart.
    apply Inv_setCart; [|done]. destruct HI. auto with cashier.
  - apply Inv_setCart; [|done]. destruct HI. auto with cashier.
  - apply Inv_setCart; [|done]. destruct HI. auto with cashier.
  - by apply handleSaveCart_Inv.
  - by apply handleConfirmSaveCart_Inv.
  - unfold handleNewCart. destruct (_ && _); [done|].
    destruct HI as [H1 H2 H3 H4]. split; setters; try done. auto with cashier.
  - destruct HI as [H1 H2 H3 H4]. split; setters; try done. auto with cashier.
  - destruct (savedCarts s !! index) as [c|] eqn:Hc; [|done].
    apply handleLoadCart_Inv; [|done]. by eapply list_elem_of_lookup_2.
  - by apply handleDeleteCart_Inv.
  - unfold handleCheckout. destruct (isEmpty _); [done|].
    by eapply Inv_frame; [..|exact HI].
  - by apply handleConfirmCheckout_Inv.
  - by eapply Inv_frame; [..|exact HI].
  - by eapply Inv_frame; [..|exact HI].
  - destruct which; by eapply Inv_frame; [..|exact HI].
Qed.

Lemma reachable_Inv (s : State) : reachable s -> Inv s.
Proof.
  induction 1 as [|s ev _ IH]; [apply Inv_init|by apply step_Inv].
Qed.

Lemma run_reachable (events : list Event) (s : State) :
  reachable s -> reachable (run events s).
Proof.
  revert s. induction events as [|ev events IH]; intros s Hs; simpl; [done|].
  apply IH. by constructor.
Qed.

Lemma addApples_reachable (n : nat) : reachable (addApples n).
Proof. apply run_reachable. constructor. Qed.

Lemma parked_reachable : reachable parked.
Proof. apply run_reachable. constructor. Qed.

Lemma parkedThenNew_reachable : reachable parkedThenNew.
Proof. apply run_reachable, parked_reachable. Qed.

Lemma parked_eq :
  parked
  = mkState (SavedCart.items parkedCart) [parkedCart]
            (Some (SavedCart.id parkedCart)) "" "" tenUnits false false false
            [parkedCart].
Proof. vm_compute. reflexivity. Qed.

(** ** The availability formula *)

(** An expired batch changes no total, whatever its quantity. *)
Lemma expired_not_counted (today : Z) (r : InventoryItem.t)
    (inv : list InventoryItem.t) (P : string) :
  getExpiryStatus today (InventoryItem.expiry_date r) = expired ->
  totalSellableStock today (r :: inv) P = totalSellableStock today inv P.
Proof.
  intros Hexp. unfold totalSellableStock. simpl.
  unfold contributes at 1. by rewrite Hexp, andb_false_r.
Qed.

(** C1.  In every state of a session and for every product [P], the
    available quantity that the page computes is
    [max 0 (totalSellableStock P - reservations of P in the saved carts other
    than the current one - quantity of P in the live cart)], where the total
    counts the batches of [P] with a positive quantity and status [valid] or
    [near_expiry]; it is never negative, and an expired batch changes it by
    nothing. *)
Theorem available_quantity_formula (s : State) (today : Z) (P : string) :
  reachable s ->
  availableQuantity today s P
  = Z.max 0 (totalSellableStock today (inventory s) P
             - reservedByOthers (savedCarts s) (currentCartId s) P
             - reservedQty (cart s) P)
  /\ 0 <= availableQuantity today s P
  /\ (forall r,
        getExpiryStatus today (InventoryItem.expiry_date r) = expired ->
        availableQuantity today (setInventory (r :: inventory s) s) P
        = availableQuantity today s P).
Proof.
  intros Hs. apply reachable_Inv in Hs. pose proof (inv_current s Hs) as Hwf.
  split; [by apply availableQuantity_closed|].
  split; [rewrite availableQuantity_closed by done; lia|].
  intros r Hr. rewrite !availableQuantity_closed by done. simpl.
  by rewrite expired_not_counted.
Qed.

Lemma available_quantity_formula_witness :
  availableQuantity 0 parked "A" = 8 /\ 0 <= availableQuantity 0 parked "A".
Proof.
  destruct (available_quantity_formula parked 0 "A" parked_reachable)
    as (Heq & Hpos & _).
  split; [|exact Hpos]. rewrite Heq. rewrite parked_eq. vm_compute. reflexivity.
Defined.

(** ** Loading a saved cart *)

Lemma otherCarts_neverSaved (carts : list SavedCart.t) (x : string) :
  otherCarts carts (Some x)
  = otherCarts
      (List.filter (fun c => negb (String.eqb (SavedCart.id c) x)) carts) None.
Proof.
  unfold otherCarts. induction carts as [|c carts IH]; simpl; [done|].
  rewrite eqb_decide.
  destruct (decide (SavedCart.id c = x)) as [Heq|Hne].
  - rewrite !bool_decide_eq_true_2 by congruence. simpl. exact IH.
  - rewrite !bool_decide_eq_false_2 by congruence. simpl. by rewrite IH.
Qed.

Lemma reservedByOthers_only (carts : list SavedCart.t) (x P : string) :
  (forall c, c ∈ carts -> SavedCart.id c <> x ->
             reservedQty (SavedCart.items c) P = 0) ->
  reservedByOthers carts (Some x) P = 0.
Proof.
  intros Hothers. unfold reservedByOthers, otherCarts.
  induction carts as [|c carts IH]; simpl; [done|].
  destruct (decide (SavedCart.id c = x)) as [Heq|Hne].
  - rewrite bool_decide_eq_true_2 by congruence. simpl.
    apply IH. intros c' Hc'. apply Hothers. by right.
  - rewrite bool_decide_eq_false_2 by congruence. simpl.
    unfold sumZ in *. simpl. rewrite IH.
    + rewrite Hothers; [done|by left|done].
    + intros c' Hc'. apply Hothers. by right.
Qed.

(** C2.  After a saved cart [X] of the session is loaded, the availability
    of every product equals the one computed in the state where [X] was
    never saved and its lines are in the live cart: the stored entry with
    the id of [X] is left out of the subtraction and the live copy is
    counted instead.  For a product that no saved cart of another id holds,
    this is [max 0 (totalSellableStock - quantity in X)]: the reservation of
    [X] is subtracted once. *)
Theorem load_counts_reservation_once (s : State) (X : SavedCart.t)
    (confirm : bool) :
  reachable s ->
  X ∈ savedCarts s ->
  isEmpty (cart s) || truthy (currentCartId s) || confirm = true ->
  let s' := fst (handleLoadCart confirm X s) in
  cart s' = SavedCart.items X
  /\ currentCartId s' = Some (SavedCart.id X)
  /\ (forall today P,
        availableQuantity today s' P = availableQuantity today (neverSaved X s) P)
  /\ (forall today P,
        (forall c, c ∈ savedCarts s -> SavedCart.id c <> SavedCart.id X ->
                   reservedQty (SavedCart.items c) P = 0) ->
        availableQuantity today s' P
        = Z.max 0 (totalSellableStock today (inventory s) P
                   - reservedQty (SavedCart.items X) P)).
Proof.
  intros Hs HX Hgo s'.
  pose proof (handleLoadCart_Inv confirm X s HX (reachable_Inv s Hs)) as HI'.
  assert (s' = setIsLoadCartModalOpen false
                 (setCartName (SavedCart.name X)
                    (setCurrentCartId (Some (SavedCart.id X))
                       (setCart (SavedCart.items X) s)))) as Hs'.
  { subst s'. unfold handleLoadCart.
    destruct (isEmpty (cart s)), (truthy (currentCartId s)), confirm; done. }
  fold s' in HI'. pose proof (inv_current s' HI') as Hwf.
  split; [by rewrite Hs'|]. split; [by rewrite Hs'|]. split.
  - intros today P. rewrite !availableQuantity_closed by done.
    rewrite Hs'. setters. unfold reservedByOthers.
    by rewrite otherCarts_neverSaved.
  - intros today P Honly. rewrite availableQuantity_closed by done.
    rewrite Hs'. setters. rewrite reservedByOthers_only by done. f_equal. lia.
Qed.

Lemma load_counts_reservation_once_witness :
  availableQuantity 0 (fst (handleLoadCart false parkedCart parkedThenNew)) "A"
  = 8.
Proof.
  assert (parkedCart ∈ savedCarts parkedThenNew) as HX.
  { apply list_elem_of_In. vm_compute. by left. }
  destruct (load_counts_reservation_once parkedThenNew parkedCart false
              parkedThenNew_reachable HX eq_refl)
    as (_ & _ & _ & Honly).
  rewrite Honly.
  - vm_compute. reflexivity.
  - intros c Hc Hne. apply list_elem_of_In in Hc. vm_compute in Hc.
    destruct Hc as [<-|[]]. done.
Defined.

(** ** Adding a line *)

Lemma reservedQty_notin (l : list CartItem.t) (P : string) :
  P ∉ map CartItem.id l -> reservedQty l P = 0.
Proof.
  unfold reservedQty. induction l as [|x l IH]; simpl; [done|].
  rewrite not_elem_of_cons. intros [Hx Hl].
  unfold sameId at 1. destruct (String.eqb_spec (CartItem.id x) P); [done|].
  by apply IH.
Qed.

(** With one line per product, the quantity held of a product is that of
    the line [find] returns. *)
Lemma reservedQty_find (l : list CartItem.t) (P : string) :
  NoDup (map CartItem.id l) ->
  reservedQty l P
  = match List.find (sameId P) l with
    | Some line => CartItem.quantity line
    | None => 0
    end.
Proof.
  induction l as [|x l IH]; simpl; [done|].
  intros [Hx Hl]%NoDup_cons. unfold reservedQty in *. simpl.
  destruct (sameId P x) eqn:Hid; simpl; [|by apply IH].
  apply String.eqb_eq in Hid. rewrite Hid in Hx.
  apply reservedQty_notin in Hx. unfold reservedQty, sumZ in *. simpl. lia.
Qed.

(** [addToCart] compares the line's new quantity with an availability from
    which the line's present quantity is already taken: the click is refused
    as soon as twice the present quantity plus one exceeds what the other
    carts leave of the stock. *)
Lemma addToCart_refused_iff (today : Z) (product : Product.t) (s : State) :
  reachable s ->
  let P := Product.id product in
  let free := totalSellableStock today (inventory s) P
              - reservedByOthers (savedCarts s) (currentCartId s) P in
  snd (addToCart today product s) <> []
  <-> free < 2 * reservedQty (cart s) P + 1.
Proof.
  intros Hs P free. apply reachable_Inv in Hs.
  pose proof (availableQuantity_closed today s P (inv_current s Hs)) as Hav.
  pose proof (reservedQty_find (cart s) P (proj1 (inv_cart s Hs))) as Hq.
  assert (0 <= reservedQty (cart s) P) as Hpos.
  { rewrite Hq. destruct (List.find (sameId P) (cart s)) as [line|] eqn:Hf; [|done].
    apply find_some in Hf as [Hin _].
    pose proof (proj1 (Forall_forall _ _) (proj2 (inv_cart s Hs)) line
                  (proj2 (list_elem_of_In _ _) Hin)). simpl in *. lia. }
  unfold addToCart. fold P. rewrite Hav. fold free.
  destruct (List.find (sameId P) (cart s)) as [line|]; rewrite Hq;
    match goal with |- context [?a >? ?b] => destruct (Z.gtb_spec a b) end;
    simpl; split; try done; try lia.
Qed.

(** C3.  On ten sellable units of one product, an empty cart and no saved
    cart, the first five clicks on the product are accepted and the sixth is
    refused with [InsufficientInventory 5 6], the cart staying at five: the
    ten additions of the scenario do not go through. *)
Theorem sixth_add_is_refused :
  totalSellableStock 0 (inventory (addApples 0)) "A" = 10
  /\ cart (addApples 0) = [] /\ savedCarts (addApples 0) = []
  /\ map CartItem.quantity (cart (addApples 5)) = [5]
  /\ addToCart 0 apple (addApples 5)
     = (addApples 5, [InsufficientInventory 5 6])
  /\ map CartItem.quantity (cart (addApples 11)) = [5].
Proof. vm_compute. repeat split. Qed.

(** ** Refused operations *)

Lemma setCart_same (s : State) : setCart (cart s) s = s.
Proof. by destruct s. Qed.

Lemma addToCart_refused (today : Z) (product : Product.t) (s : State) :
  snd (addToCart today product s) <> [] -> fst (addToCart today product s) = s.
Proof.
  unfold addToCart. by destruct (List.find _ _); destruct (_ >? _).
Qed.

Section UpdateRefused.
Context (id : string) (delta availableQuantity : Z).

Local Abbreviation line := (updateLine id delta availableQuantity).

Lemma updateLine_other (x : CartItem.t) :
  sameId id x = false -> line x = (Some x, []).
Proof. intros H. unfold updateLine. by rewrite H. Qed.

(** Lines of other products pass through unchanged and raise nothing. *)
Lemma updateLine_others (l : list CartItem.t) :
  id ∉ map CartItem.id l ->
  omap fst (map line l) = l /\ concat (map snd (map line l)) = [].
Proof.
  induction l as [|x l IH]; [done|].
  cbn [map]. rewrite not_elem_of_cons. intros [Hx Hl].
  destruct (IH Hl) as [IH1 IH2].
  rewrite updateLine_other by (by apply String.eqb_neq).
  split; [cbn; f_equal; exact IH1|exact IH2].
Qed.

(** In a cart with one line per product, an alert means that the line of
    the product was kept as it was. *)
Lemma updateLine_refused (l : list CartItem.t) :
  NoDup (map CartItem.id l) ->
  concat (map snd (map line l)) <> [] ->
  omap fst (map line l) = l.
Proof.
  induction l as [|x l IH]; [done|].
  cbn [map]. intros [Hx Hl]%NoDup_cons Halert.
  destruct (sameId id x) eqn:Hid.
  - apply String.eqb_eq in Hid. rewrite Hid in Hx.
    destruct (updateLine_others l Hx) as [E1 E2].
    cbn [concat] in Halert. rewrite E2, app_nil_r in Halert.
    assert (fst (line x) = Some x) as Hkept.
    { revert Halert. unfold updateLine, sameId.
      rewrite Hid, String.eqb_refl.
      destruct (_ <=? _); [done|]. by destruct (_ && _). }
    cbn. rewrite Hkept. f_equal. exact E1.
  - rewrite updateLine_other in * by done.
    cbn. f_equal. apply IH; [done|exact Halert].
Qed.
End UpdateRefused.

Lemma insufficientStock_nonempty (alerts : list Alert) :
  insufficientStock alerts -> alerts <> [].
Proof. intros (a & r & Hin) ->. inversion Hin. Qed.

(** C4.  In every state of a session, a refused operation changes nothing:
    [addToCart] and [updateQuantity] that raise the insufficient-stock alert,
    the save and checkout handlers on an empty cart, and a checkout whose
    request was rejected or did not go through all return the state they
    were called in (live cart, saved carts, current cart id and storage
    included). *)
Theorem refused_operations_change_nothing (s : State) :
  reachable s ->
  (forall today product,
     insufficientStock (snd (addToCart today product s)) ->
     fst (addToCart today product s) = s)
  /\ (forall today id delta,
        insufficientStock (snd (updateQuantity today id delta s)) ->
        fst (updateQuantity today id delta s) = s)
  /\ (cart s = [] ->
      (forall clock, handleSaveCart clock s = (s, [CartEmpty]))
      /\ (forall clock, fst (handleConfirmSaveCart clock s) = s)
      /\ fst (handleCheckout s) = s
      /\ (forall response, fst (handleConfirmCheckout response s) = s))
  /\ (forall response,
        response <> Accepted ->
        fst (handleConfirmCheckout response s) = s
        /\ (cart s <> [] -> snd (handleConfirmCheckout response s) = [OrderFailed])).
Proof.
  intros Hs. apply reachable_Inv in Hs. repeat split.
  - intros today product H. by apply addToCart_refused, insufficientStock_nonempty.
  - intros today id delta H%insufficientStock_nonempty.
    unfold updateQuantity in *. simpl in *.
    rewrite updateLine_refused; [apply setCart_same|apply (inv_cart s Hs)|done].
  - unfold handleSaveCart. by rewrite H.
  - unfold handleConfirmSaveCart. by rewrite H.
  - unfold handleCheckout. by rewrite H.
  - unfold handleConfirmCheckout. by rewrite H.
  - unfold handleConfirmCheckout. destruct (isEmpty _); [done|]. by destruct response.
  - unfold handleConfirmCheckout. destruct (cart s); [done|]. by destruct response.
Qed.

Lemma refused_operations_change_nothing_witness :
  insufficientStock (snd (addToCart 0 apple (addApples 5)))
  /\ cart (fst (addToCart 0 apple (addApples 5))) = cart (addApples 5)
  /\ insufficientStock (snd (updateQuantity 0 "A" 1 (addApples 5)))
  /\ cart (fst (updateQuantity 0 "A" 1 (addApples 5))) = cart (addApples 5).
Proof.
  assert (insufficientStock (snd (addToCart 0 apple (addApples 5)))) as Hadd.
  { exists 5, 6. vm_compute. by left. }
  assert (insufficientStock (snd (updateQuantity 0 "A" 1 (addApples 5)))) as Hupd.
  { exists 5, 6. vm_compute. by left. }
  destruct (refused_operations_change_nothing (addApples 5)
              (addApples_reachable 5)) as (Ha & Hu & _).
  split; [exact Hadd|]. split; [by rewrite (Ha 0 apple Hadd)|].
  split; [exact Hupd|]. by rewrite (Hu 0 "A"%string 1 Hupd).
Defined.

(** ** Checkout and deletion *)

(** C5.  In every state of a session with [currentCartId = X] and a
    non-empty cart, after an accepted checkout no saved cart of id [X] is
    left, in the page's list or in storage, the live cart is empty and the
    current cart id is cleared. *)
Theorem checkout_releases_saved_cart (s : State) (X : string) :
  reachable s ->
  currentCartId s = Some X ->
  cart s <> [] ->
  let s' := fst (handleConfirmCheckout Accepted s) in
  (forall c, c ∈ savedCarts s' -> SavedCart.id c <> X)
  /\ (forall c, c ∈ localStorage s' -> SavedCart.id c <> X)
  /\ cart s' = []
  /\ currentCartId s' = None
  /\ snd (handleConfirmCheckout Accepted s) = [OrderCreated].
Proof.
  intros Hs HX Hcart s'. apply reachable_Inv in Hs.
  assert (truthy (currentCartId s) = true) as Htruthy.
  { apply truthy_Some. exists X. split; [done|].
    intros ->. by apply (inv_current s Hs). }
  subst s'. unfold handleConfirmCheckout.
  destruct (cart s) as [|line rest] eqn:Hc; [done|]. simpl.
  rewrite Htruthy, HX. setters.
  repeat split; try done; intros c Hc'; by apply (deleteCart_gone X (localStorage s)).
Qed.

Lemma checkout_releases_saved_cart_witness :
  savedCarts (fst (handleConfirmCheckout Accepted parked)) = []
  /\ cart (fst (handleConfirmCheckout Accepted parked)) = [].
Proof.
  assert (cart parked <> []) as Hne by (rewrite parked_eq; done).
  assert (currentCartId parked = Some "cart-1700000000000"%string) as Hid
    by (by rewrite parked_eq).
  destruct (checkout_releases_saved_cart parked _ parked_reachable Hid Hne)
    as (_ & _ & Hcart & _).
  split; [|exact Hcart]. rewrite parked_eq. vm_compute. reflexivity.
Defined.

(** C6, as stated: deleting the current cart would empty the live cart.  In
    the parked session the current cart is deleted and its two apples stay
    in the live cart. *)
Lemma delete_current_cart_counterexample :
  currentCartId parked = Some "cart-1700000000000"%string
  /\ cart (fst (handleDeleteCart true "cart-1700000000000" parked))
     = SavedCart.items parkedCart
  /\ cart (fst (handleDeleteCart true "cart-1700000000000" parked)) <> [].
Proof. rewrite parked_eq. vm_compute. repeat split. discriminate. Qed.

(** C6, amended.  When [handleDeleteCart] is confirmed for the id of the
    current cart, afterwards no saved cart of that id is left in the page's
    list or in storage, the current cart id is [null] and the cart name is
    empty; the live cart keeps its lines. *)
Theorem delete_current_cart_keeps_lines (s : State) (cartId : string) :
  currentCartId s = Some cartId ->
  let s' := fst (handleDeleteCart true cartId s) in
  (forall c, c ∈ savedCarts s' -> SavedCart.id c <> cartId)
  /\ (forall c, c ∈ localStorage s' -> SavedCart.id c <> cartId)
  /\ savedCarts s' = localStorage s'
  /\ currentCartId s' = None
  /\ cartName s' = ""%string
  /\ cart s' = cart s.
Proof.
  intros Hcur s'. subst s'. unfold handleDeleteCart. simpl. setters.
  rewrite bool_decide_eq_true_2 by done. simpl.
  repeat split; try done;
    intros c Hc; by apply (deleteCart_gone cartId (localStorage s)).
Qed.

Lemma delete_current_cart_keeps_lines_witness :
  currentCartId (fst (handleDeleteCart true "cart-1700000000000" parked)) = None
  /\ cart (fst (handleDeleteCart true "cart-1700000000000" parked)) = cart parked.
Proof.
  assert (currentCartId parked = Some "cart-1700000000000"%string) as Hid
    by (by rewrite parked_eq).
  destruct (delete_current_cart_keeps_lines parked _ Hid)
    as (_ & _ & _ & Hcur & _ & Hcart).
  split; [exact Hcur|exact Hcart].
Defined.

(** ** Saving *)

(** C7.  The cart that [saveCart] returns and stores holds the lines it was
    given and a total equal to the sum of price times quantity over them.
    [updateCart] on an id under which a cart is stored returns a cart that
    holds the given lines and the sum of price times quantity over them as
    its total, and stores it in place of that entry, where [getCartById]
    then finds it; on an id under which none is stored it returns [null]
    and storage is as it was. *)
Theorem saved_total_is_sum_of_lines (clock : Clock) (items : list CartItem.t)
    (name : option string) (cartId : string) (ls : Carts.Storage) :
  (let (saved, ls') := Carts.saveCart clock items name ls in
   SavedCart.items saved = items
   /\ SavedCart.total saved = sumLines (SavedCart.items saved)
   /\ ls' = saved :: ls)
  /\ match Carts.updateCart clock cartId items name ls with
     | (Some updated, ls') =>
         SavedCart.items updated = items
         /\ SavedCart.total updated = sumLines (SavedCart.items updated)
         /\ exists i old,
              ls !! i = Some old /\ SavedCart.id old = cartId
              /\ ls' = <[i := updated]> ls /\ ls' !! i = Some updated
     | (None, ls') => ls' = ls
     end
  /\ (forall old,
        Carts.getCartById cartId ls = Some old ->
        exists updated i,
          Carts.updateCart clock cartId items name ls
          = (Some updated, <[i := updated]> ls)
          /\ ls !! i = Some old
          /\ SavedCart.items updated = items
          /\ SavedCart.total updated = sumLines items
          /\ Carts.getCartById cartId (<[i := updated]> ls) = Some updated)
  /\ (Carts.getCartById cartId ls = None ->
      Carts.updateCart clock cartId items name ls = (None, ls)).
Proof.
  pose proof (updateCart_spec clock cartId items name ls) as H.
  split; [|split; [|split]].
  - simpl. by rewrite reduceTotal_sumLines.
  - destruct (Carts.findIndex _ ls) as [i|]; [|by rewrite H].
    destruct H as (old & Hold & Hid & ->). simpl.
    rewrite reduceTotal_sumLines. repeat split.
    exists i, old. repeat split; try done.
    apply list_lookup_insert_eq. by eapply lookup_lt_Some.
  - intros old Hfound. unfold Carts.getCartById, Carts.getSavedCarts in *.
    destruct (find_findIndex _ _ _ Hfound) as (i & Hi & Hlook).
    rewrite Hi in H. destruct H as (old' & Hold' & Hid & Heq).
    eexists _, i. split; [exact Heq|]. split; [exact Hlook|].
    split; [done|]. split; [apply reduceTotal_sumLines|].
    apply find_insert_first; [done|]. simpl. rewrite Hid. apply String.eqb_refl.
  - intros Hnone. unfold Carts.getCartById, Carts.getSavedCarts in Hnone.
    by rewrite (find_None_findIndex _ _ Hnone) in H.
Qed.

Lemma saved_total_is_sum_of_lines_witness :
  exists updated,
    fst (Carts.updateCart evening "cart-1700000000000"
           (SavedCart.items parkedCart ++ SavedCart.items parkedCart) None
           [parkedCart])
    = Some updated
    /\ SavedCart.total updated = 4000.
Proof.
  destruct (saved_total_is_sum_of_lines evening
              (SavedCart.items parkedCart ++ SavedCart.items parkedCart) None
              "cart-1700000000000" [parkedCart]) as (_ & _ & Hfound & _).
  destruct (Hfound parkedCart eq_refl) as (updated & i & -> & _ & _ & Htotal & _).
  exists updated. split; [reflexivity|]. rewrite Htotal. reflexivity.
Defined.

Example updateCart_found :
  exists updated ls',
    Carts.updateCart evening "cart-1700000000000" [] None [parkedCart]
    = (Some updated, ls')
    /\ SavedCart.total updated = 0 /\ SavedCart.name updated = SavedCart.name parkedCart.
Proof. eexists _, _. vm_compute. repeat split. Qed.

(** ** The quantity floor *)

Lemma updateQuantity_removes (id : string) (delta availableQuantity : Z)
    (l : list CartItem.t) (line : CartItem.t) :
  NoDup (map CartItem.id l) ->
  line ∈ l -> CartItem.id line = id -> CartItem.quantity line + delta <= 0 ->
  id ∉ map CartItem.id (omap fst (map (updateLine id delta availableQuantity) l)).
Proof.
  intros Hnd Hin Hid Hle.
  induction l as [|x l IH]; [by apply not_elem_of_nil|].
  cbn [map] in *. apply NoDup_cons in Hnd as [Hx Hnd].
  apply elem_of_cons in Hin as [<-|Hin].
  - assert (updateLine id delta availableQuantity line = (None, [])) as ->.
    { unfold updateLine, sameId. rewrite Hid, String.eqb_refl.
      by destruct (Z.leb_spec (CartItem.quantity line + delta) 0); [|lia]. }
    cbn. rewrite Hid in Hx.
    by rewrite (proj1 (updateLine_others id delta availableQuantity l Hx)).
  - assert (CartItem.id x <> id) as Hne.
    { intros Heq. apply Hx. rewrite Heq, <- Hid.
      apply list_elem_of_In, in_map, list_elem_of_In, Hin. }
    rewrite updateLine_other by (by apply String.eqb_neq).
    cbn. rewrite not_elem_of_cons. split; [done|]. by apply IH.
Qed.

(** C8.  In every state of a session each line of the live cart has a
    quantity of at least one.  [addToCart] leaves the cart as it is, raises
    the quantity of the product's line by one, or appends a line of quantity
    one; [updateQuantity] with a change that brings a line to zero or below
    leaves no line of that product in the cart. *)
Theorem cart_quantities_positive (s : State) :
  reachable s ->
  Forall (fun line => 1 <= CartItem.quantity line) (cart s)
  /\ (forall today product,
        let P := Product.id product in
        let cart' := cart (fst (addToCart today product s)) in
        cart' = cart s
        \/ (exists line,
              List.find (sameId P) (cart s) = Some line
              /\ cart' = map (fun item =>
                                if sameId P item
                                then CartItem.withQuantity (CartItem.quantity line + 1) item
                                else item) (cart s))
        \/ (List.find (sameId P) (cart s) = None
            /\ exists line,
                 cart' = cart s ++ [line]
                 /\ CartItem.id line = P /\ CartItem.quantity line = 1))
  /\ (forall today P delta line,
        line ∈ cart s -> CartItem.id line = P ->
        CartItem.quantity line + delta <= 0 ->
        P ∉ map CartItem.id (cart (fst (updateQuantity today P delta s)))).
Proof.
  intros Hs. apply reachable_Inv in Hs. destruct (inv_cart s Hs) as [Hnd Hq].
  split; [done|]. split.
  - intros today product P cart'. subst cart'. unfold addToCart. fold P.
    destruct (List.find (sameId P) (cart s)) as [line|];
      destruct (_ >? _); simpl; eauto 8.
  - intros today P delta line Hin Hid Hle. simpl.
    by eapply updateQuantity_removes.
Qed.

Lemma cart_quantities_positive_witness :
  Forall (fun line => 1 <= CartItem.quantity line) (cart (addApples 3))
  /\ cart (fst (updateQuantity 0 "A" (-3) (addApples 3))) = [].
Proof.
  destruct (cart_quantities_positive (addApples 3) (addApples_reachable 3))
    as (Hq & _ & _).
  split; [exact Hq|]. vm_compute. reflexivity.
Defined.

(** ** Saving over a cart that is gone *)

(** The guard of [handleSaveCart] on an empty cart, which the Save button
    never reaches: called with an empty cart the handler raises the
    cart-empty alert and changes nothing, and there is no button then. *)
Lemma handleSaveCart_empty_guard :
  handleSaveCart evening danglingEmpty = (danglingEmpty, [CartEmpty])
  /\ saveButton evening danglingEmpty = None.
Proof. vm_compute. by split. Qed.

(** C9.  [updateCart] on an id that no stored cart has returns [null] and
    leaves storage as it was.  So, while [currentCartId] names a cart that
    is no longer stored, the save operation is a silent no-op: whenever the
    Save button can be clicked, which is whenever the live cart is not
    empty, the click returns the state it was made in, storage included,
    and raises no alert; and in any state [handleSaveCart] changes
    nothing. *)
Theorem save_over_deleted_cart_is_silent (clock : Clock) :
  (forall cartId items name ls,
     Forall (fun c => SavedCart.id c <> cartId) ls ->
     Carts.updateCart clock cartId items name ls = (None, ls))
  /\ (forall s X,
        currentCartId s = Some X -> X <> ""%string ->
        Forall (fun c => SavedCart.id c <> X) (localStorage s) ->
        fst (handleSaveCart clock s) = s
        /\ (cart s <> [] -> handleSaveCart clock s = (s, []))
        /\ (forall outcome, saveButton clock s = Some outcome -> outcome = (s, []))
        /\ (cart s <> [] -> saveButton clock s = Some (s, []))).
Proof.
  assert (forall cartId items name ls,
            Forall (fun c => SavedCart.id c <> cartId) ls ->
            Carts.updateCart clock cartId items name ls = (None, ls)) as Hupd.
  { intros cartId items name ls Hnone.
    pose proof (updateCart_spec clock cartId items name ls) as H.
    destruct (Carts.findIndex _ ls) as [i|] eqn:Hi; [|done].
    destruct H as (old & Hold & Hid & _).
    by pose proof (Forall_lookup_1 _ _ _ _ Hnone Hold). }
  split; [exact Hupd|].
  intros s X HX Hne Hgone.
  assert (truthy (currentCartId s) = true) as Htruthy.
  { apply truthy_Some. by exists X. }
  assert (cart s <> [] -> handleSaveCart clock s = (s, [])) as Hsilent.
  { unfold handleSaveCart. rewrite Htruthy, HX. simpl.
    rewrite (Hupd X _ _ _ Hgone).
    destruct (cart s) as [|line rest] eqn:Hc; simpl; [done|].
    intros _. by destruct s. }
  split; [|split; [exact Hsilent|split]].
  - destruct (cart s) as [|line rest] eqn:Hc.
    + unfold handleSaveCart. by rewrite Hc.
    + rewrite Hsilent; [done|congruence].
  - intros outcome. unfold saveButton.
    destruct (cart s) as [|line rest] eqn:Hc; simpl; [done|].
    intros [= <-]. apply Hsilent. congruence.
  - intros Hcart. unfold saveButton.
    destruct (cart s) as [|line rest] eqn:Hc; simpl; [done|].
    f_equal. apply Hsilent. congruence.
Qed.

Lemma save_over_deleted_cart_is_silent_witness :
  saveButton evening (setCart (SavedCart.items parkedCart) danglingEmpty)
  = Some (setCart (SavedCart.items parkedCart) danglingEmpty, []).
Proof.
  destruct (save_over_deleted_cart_is_silent evening) as [_ H].
  apply (H (setCart (SavedCart.items parkedCart) danglingEmpty)
           "cart-1700000000000"%string).
  - reflexivity.
  - discriminate.
  - vm_compute. constructor.
  - vm_compute. discriminate.
Defined.

(** ** Cart names *)

(** C10.  [updateCart] called without a name, or with the empty string,
    keeps the name of the stored cart; [saveCart] called without a name, or
    with the empty string, gives the cart a non-empty default name; and
    whatever the name argument, neither leaves a cart with an empty name in
    a storage whose carts all had a non-empty one.  So no state of a session
    holds a saved cart with an empty name. *)
Theorem saved_cart_name_never_empty (clock : Clock) (items : list CartItem.t)
    (ls : Carts.Storage) :
  (forall cartId name updated ls',
     name = None \/ name = Some ""%string ->
     Carts.updateCart clock cartId items name ls = (Some updated, ls') ->
     exists i old,
       ls !! i = Some old /\ SavedCart.id old = cartId
       /\ SavedCart.name updated = SavedCart.name old)
  /\ (forall name,
        name = None \/ name = Some ""%string ->
        SavedCart.name (fst (Carts.saveCart clock items name ls))
        = ("Cart " ++ toLocaleString clock)%string
        /\ SavedCart.name (fst (Carts.saveCart clock items name ls)) <> ""%string)
  /\ (Forall (fun c => SavedCart.name c <> ""%string) ls ->
      forall name cartId,
        Forall (fun c => SavedCart.name c <> ""%string)
               (snd (Carts.saveCart clock items name ls))
        /\ Forall (fun c => SavedCart.name c <> ""%string)
                  (snd (Carts.updateCart clock cartId items name ls)))
  /\ (forall s,
        reachable s ->
        Forall (fun c => SavedCart.name c <> ""%string) (localStorage s)
        /\ Forall (fun c => SavedCart.name c <> ""%string) (savedCarts s)).
Proof.
  split; [|split; [|split]].
  - intros cartId name updated ls' Hname Hupd.
    pose proof (updateCart_spec clock cartId items name ls) as H.
    destruct (Carts.findIndex _ ls) as [i|]; [|by rewrite H in Hupd].
    destruct H as (old & Hold & Hid & Heq). rewrite Heq in Hupd.
    injection Hupd as <- _. exists i, old. repeat split; try done.
    by destruct Hname as [->| ->].
  - intros name [->| ->]; by simpl.
  - intros Hls name cartId. split.
    + simpl. constructor; [|done]. simpl.
      destruct (truthy name) eqn:Hn; [by apply truthy_default|done].
    + pose proof (updateCart_spec clock cartId items name ls) as H.
      destruct (Carts.findIndex _ ls) as [i|]; [|by rewrite H].
      destruct H as (old & Hold & _ & ->). simpl.
      apply Forall_insert; [done|]. simpl.
      destruct (truthy name) eqn:Hn; [by apply truthy_default|].
      apply (Forall_lookup_1 _ _ _ _ Hls Hold).
  - intros s Hs. apply reachable_Inv in Hs.
    rewrite (inv_synced s Hs). split; eapply Forall_impl;
      try apply (inv_saved s Hs); by intros c (_ & Hn & _).
Qed.

Lemma saved_cart_name_never_empty_witness :
  SavedCart.name <$> (snd (Carts.updateCart evening "cart-1700000000000" []
                             (Some ""%string) [parkedCart]))
  = ["Cart 15/11/23 05.13"%string]
  /\ Forall (fun c => SavedCart.name c <> ""%string)
            (snd (Carts.updateCart evening "cart-1700000000000" []
                    (Some ""%string) [parkedCart])).
Proof.
  destruct (saved_cart_name_never_empty evening [] [parkedCart])
    as (_ & _ & Hkeep & _).
  split; [vm_compute; reflexivity|].
  apply Hkeep. repeat constructor. vm_compute. discriminate.
Defined.

(** * Further properties *)

(** ** The saved-cart library: lookups *)

Lemma find_insert_other {A} (p q : A -> bool) (l : list A) (i : nat) (old u : A) :
  l !! i = Some old -> q old = false -> q u = false ->
  List.find q (<[i := u]> l) = List.find q l.
Proof.
  revert i. induction l as [|y l IH]; intros [|i]; simpl; try done.
  - intros [= ->] Hold Hu. by rewrite Hold, Hu.
  - intros Hi Hold Hu. destruct (q y); [done|]. by apply IH.
Qed.

Lemma find_filter_other {A} (p q : A -> bool) (l : list A) :
  (forall x, q x = true -> p x = true) ->
  List.find q (List.filter p l) = List.find q l.
Proof.
  intros Hqp. induction l as [|y l IH]; simpl; [done|].
  destruct (p y) eqn:Hp; simpl.
  - by rewrite IH.
  - destruct (q y) eqn:Hq; [|done]. apply Hqp in Hq. congruence.
Qed.

(** X1.  The cart that [saveCart] returns is the first of the stored carts
    and is the one [getCartById] finds under its id; carts stored under
    another id are found as before. *)
Theorem saved_cart_is_found (clock : Clock) (items : list CartItem.t)
    (name : option string) (ls : Carts.Storage) :
  let saved := fst (Carts.saveCart clock items name ls) in
  let ls' := snd (Carts.saveCart clock items name ls) in
  Carts.getSavedCarts ls' !! 0%nat = Some saved
  /\ Carts.getCartById (SavedCart.id saved) ls' = Some saved
  /\ (forall other,
        other <> SavedCart.id saved ->
        Carts.getCartById other ls' = Carts.getCartById other ls)
  /\ SavedCart.createdAt saved = SavedCart.updatedAt saved.
Proof.
  unfold Carts.saveCart, Carts.getCartById, Carts.getSavedCarts.
  cbn [fst snd List.find SavedCart.id SavedCart.createdAt SavedCart.updatedAt].
  rewrite String.eqb_refl. repeat split; try done.
  intros other Hne.
  destruct (String.eqb_spec ("cart-" ++ Carts.showN (Date_now clock)) other);
    congruence.
Qed.

(** X2.  When [updateCart] returns a cart, that cart is the one
    [getCartById] finds under the id afterwards; it has the id and the
    creation time of the cart found under the id before, and the time of
    the update as [updatedAt]. *)
Theorem updated_cart_is_found (clock : Clock) (cartId : string)
    (items : list CartItem.t) (name : option string) (ls ls' : Carts.Storage)
    (updated : SavedCart.t) :
  Carts.updateCart clock cartId items name ls = (Some updated, ls') ->
  Carts.getCartById cartId ls' = Some updated
  /\ SavedCart.id updated = cartId
  /\ SavedCart.updatedAt updated = toISOString clock
  /\ exists old,
       Carts.getCartById cartId ls = Some old
       /\ SavedCart.createdAt updated = SavedCart.createdAt old.
Proof.
  intros Hupd. pose proof (updateCart_spec clock cartId items name ls) as H.
  destruct (Carts.findIndex _ ls) as [i|] eqn:Hi; [|by rewrite H in Hupd].
  destruct H as (old & Hold & Hid & Heq). rewrite Heq in Hupd.
  injection Hupd as <- <-.
  unfold Carts.getCartById, Carts.getSavedCarts. repeat split; try done.
  - apply find_insert_first; [done|]. simpl. rewrite Hid. apply String.eqb_refl.
  - exists old. split; [|done].
    apply findIndex_find in Hi as (x & Hx & Hfind).
    assert (Some x = Some old) as [= ->]
      by (etransitivity; [symmetry; exact Hx|exact Hold]).
    exact Hfind.
Qed.

Lemma updated_cart_is_found_witness :
  Carts.getCartById "cart-1700000000000"
    (snd (Carts.updateCart evening "cart-1700000000000" [] None [parkedCart]))
  = fst (Carts.updateCart evening "cart-1700000000000" [] None [parkedCart]).
Proof.
  destruct (Carts.updateCart evening "cart-1700000000000" [] None [parkedCart])
    as [[u|] ls'] eqn:Hupd.
  - simpl. apply (updated_cart_is_found _ _ _ _ _ _ _ Hupd).
  - vm_compute in Hupd. discriminate.
Defined.

Lemma updateCart_ids (clock : Clock) (cartId : string)
    (items : list CartItem.t) (name : option string) (ls : Carts.Storage) :
  map SavedCart.id (snd (Carts.updateCart clock cartId items name ls))
  = map SavedCart.id ls.
Proof.
  pose proof (updateCart_spec clock cartId items name ls) as H.
  destruct (Carts.findIndex _ ls) as [i|] eqn:Hi; [|by rewrite H].
  destruct H as (old & Hold & Hid & ->). simpl.
  rewrite <- (list_insert_id ls i old Hold) at 2.
  by rewrite !(list_fmap_insert SavedCart.id).
Qed.

(** X3.  [updateCart] keeps the number of stored carts and their ids, in
    order, and a cart stored under another id is found as before. *)
Theorem updateCart_keeps_other_carts (clock : Clock) (cartId : string)
    (items : list CartItem.t) (name : option string) (ls : Carts.Storage) :
  let ls' := snd (Carts.updateCart clock cartId items name ls) in
  length ls' = length ls
  /\ map SavedCart.id ls' = map SavedCart.id ls
  /\ (forall other,
        other <> cartId ->
        Carts.getCartById other ls' = Carts.getCartById other ls).
Proof.
  pose proof (updateCart_spec clock cartId items name ls) as H.
  destruct (Carts.findIndex _ ls) as [i|] eqn:Hi; [|by rewrite H].
  destruct H as (old & Hold & Hid & Heq).
  pose proof (updateCart_ids clock cartId items name ls) as Hids.
  rewrite Heq in *. cbn [snd] in *. split; [|split].
  - apply length_insert.
  - exact Hids.
  - intros other Hne. unfold Carts.getCartById, Carts.getSavedCarts.
    apply (find_insert_other (fun _ => true) _ ls i old); [done| |].
    + apply String.eqb_neq. congruence.
    + simpl. apply String.eqb_neq. congruence.
Qed.

(** ** The saved-cart library: deletion and ids *)

Lemma filter_all {A} (p : A -> bool) (l : list A) :
  Forall (fun x => p x = true) l -> List.filter p l = l.
Proof.
  induction 1 as [|x l Hx _ IH]; simpl; [done|]. by rewrite Hx, IH.
Qed.

Lemma filter_idem {A} (p : A -> bool) (l : list A) :
  List.filter p (List.filter p l) = List.filter p l.
Proof.
  apply filter_all, Forall_forall. intros x Hx.
  by apply list_elem_of_In, filter_In in Hx as [_ Hx].
Qed.

Lemma find_filter_out {A} (p : A -> bool) (l : list A) :
  List.find p (List.filter (fun x => negb (p x)) l) = None.
Proof.
  induction l as [|x l IH]; simpl; [done|].
  destruct (p x) eqn:Hx; simpl; [done|]. by rewrite Hx.
Qed.

(** X4.  After [deleteCart] no cart is found under the deleted id, carts of
    other ids are found as before and keep their order, and deleting the
    same id again changes nothing more. *)
Theorem deleted_cart_is_gone (cartId : string) (ls : Carts.Storage) :
  let ls' := snd (Carts.deleteCart cartId ls) in
  Carts.getCartById cartId ls' = None
  /\ (forall other,
        other <> cartId ->
        Carts.getCartById other ls' = Carts.getCartById other ls)
  /\ (ls' `sublist_of` ls)
  /\ snd (Carts.deleteCart cartId ls') = ls'.
Proof.
  simpl. unfold Carts.getCartById, Carts.getSavedCarts. repeat split.
  - apply (find_filter_out (fun c => String.eqb (SavedCart.id c) cartId)).
  - intros other Hne. apply find_filter_other.
    intros c Hc. apply String.eqb_eq in Hc. apply negb_true_iff, String.eqb_neq.
    congruence.
  - induction ls as [|c ls IH]; simpl; [constructor|].
    destruct (negb _); by constructor.
  - apply filter_idem.
Qed.

(** X5.  [deleteCart] on an id that no stored cart has leaves the storage as
    it was; so saving a cart and deleting it again gives back the storage
    the cart was saved into, when its id was not in use. *)
Theorem delete_absent_cart (cartId : string) (ls : Carts.Storage) :
  Forall (fun c => SavedCart.id c <> cartId) ls ->
  snd (Carts.deleteCart cartId ls) = ls
  /\ (forall clock items name,
        SavedCart.id (fst (Carts.saveCart clock items name ls)) = cartId ->
        snd (Carts.deleteCart cartId (snd (Carts.saveCart clock items name ls)))
        = ls).
Proof.
  intros Habsent.
  assert (List.filter (fun c => negb (String.eqb (SavedCart.id c) cartId)) ls = ls)
    as Hsame.
  { apply filter_all. eapply Forall_impl; [exact Habsent|].
    intros c Hc. simpl. by apply negb_true_iff, String.eqb_neq. }
  split; [exact Hsame|].
  intros clock items name Hid.
  unfold Carts.saveCart, Carts.deleteCart, Carts.getSavedCarts in *.
  cbn [fst snd SavedCart.id List.filter] in *.
  by rewrite Hid, String.eqb_refl, Hsame.
Qed.

Lemma delete_absent_cart_witness :
  snd (Carts.deleteCart "cart-1700000000000"
         (snd (Carts.saveCart evening [] None [])))
  = [].
Proof.
  assert (Forall (fun c => SavedCart.id c <> "cart-1700000000000"%string) [])
    as Habsent by constructor.
  destruct (delete_absent_cart _ _ Habsent) as [_ H].
  apply H. vm_compute. reflexivity.
Defined.

Lemma showN_inj (n m : N) : Carts.showN n = Carts.showN m -> n = m.
Proof.
  unfold Carts.showN. intros H.
  assert (forall k, N.to_uint k <> Decimal.Nil) as Hnil.
  { intros [|p]; [done|]. simpl. intros Hp.
    pose proof (DecimalPos.Unsigned.of_to p) as Hof.
    rewrite Hp in Hof. done. }
  apply DecimalN.Unsigned.to_uint_inj.
  pose proof (NilZero.usu _ (Hnil n)) as Hn.
  pose proof (NilZero.usu _ (Hnil m)) as Hm.
  rewrite H in Hn. congruence.
Qed.

(** X6.  Two carts saved at different readings of [Date.now()] get different
    ids, and two carts saved at the same reading get the same id. *)
Theorem cart_id_follows_clock (clock1 clock2 : Clock)
    (items1 items2 : list CartItem.t) (name1 name2 : option string)
    (ls1 ls2 : Carts.Storage) :
  SavedCart.id (fst (Carts.saveCart clock1 items1 name1 ls1))
  = SavedCart.id (fst (Carts.saveCart clock2 items2 name2 ls2))
  <-> Date_now clock1 = Date_now clock2.
Proof.
  unfold Carts.saveCart. cbn [fst SavedCart.id]. split.
  - intros H. apply showN_inj. simpl in H. by injection H.
  - by intros ->.
Qed.

(** ** Expiry status *)

Lemma ceilDiv_bounds (a : Z) :
  (ceilDiv a MS_PER_DAY - 1) * MS_PER_DAY < a <= ceilDiv a MS_PER_DAY * MS_PER_DAY.
Proof.
  unfold ceilDiv, MS_PER_DAY.
  pose proof (Z.div_mod (- a) 86400000 ltac:(lia)) as Hdm.
  pose proof (Z.mod_pos_bound (- a) 86400000 ltac:(lia)) as Hb.
  change (1000 * 60 * 60 * 24) with 86400000. lia.
Qed.

(** X7.  A batch is [expired] exactly when its expiry lies a full day or
    more before [today], [near_expiry] from there up to seven days ahead,
    and [valid] beyond: a batch that expires today is still sellable. *)
Theorem expiry_status_thresholds (today expiry : Z) :
  (getExpiryStatus today expiry = expired <-> expiry - today <= - MS_PER_DAY)
  /\ (getExpiryStatus today expiry = near_expiry
      <-> - MS_PER_DAY < expiry - today <= 7 * MS_PER_DAY)
  /\ (getExpiryStatus today expiry = valid <-> 7 * MS_PER_DAY < expiry - today).
Proof.
  unfold getExpiryStatus.
  pose proof (ceilDiv_bounds (expiry - today)) as Hb.
  assert (MS_PER_DAY = 86400000) as HD by reflexivity. rewrite HD in *.
  destruct (Z.ltb_spec (ceilDiv (expiry - today) 86400000) 0);
    [|destruct (Z.leb_spec (ceilDiv (expiry - today) 86400000) 7)];
    repeat split; intros; try done; try lia.
Qed.

(** ** Availability in any state *)

Lemma sumZ_app (l1 l2 : list Z) : sumZ (l1 ++ l2) = sumZ l1 + sumZ l2.
Proof. unfold sumZ. induction l1 as [|x l1 IH]; simpl; lia. Qed.

Lemma totalSellableStock_app (today : Z) (inv more : list InventoryItem.t)
    (P : string) :
  totalSellableStock today (inv ++ more) P
  = totalSellableStock today inv P + totalSellableStock today more P.
Proof.
  unfold totalSellableStock. by rewrite List.filter_app, map_app, sumZ_app.
Qed.

(** The availability as a function of the sellable total and of the entry
    of the product in the reservation map, whatever the state. *)
Lemma availableQuantity_cases (today : Z) (s : State) (P : string) :
  availableQuantity today s P
  = match reservedQuantities (savedCarts s) (cart s) (currentCartId s) !! P with
    | Some r => Z.max 0 (totalSellableStock today (inventory s) P - r)
    | None => totalSellableStock today (inventory s) P
    end.
Proof.
  unfold availableQuantity. rewrite productInventoryQuantity_lookup.
  rewrite <- totalInventoryQuantity_lookup.
  by destruct (reservedQuantities _ _ _ !! P).
Qed.

(** X8.  Whatever the state, the availability of a product is never
    negative, and appending fetched batches to the inventory never lowers
    it: what is shown before the last page arrives is an under-estimate. *)
Theorem availability_grows_with_inventory (today : Z) (s : State) (P : string)
    (more : list InventoryItem.t) :
  0 <= availableQuantity today s P
  /\ availableQuantity today s P
     <= availableQuantity today (setInventory (inventory s ++ more) s) P.
Proof.
  pose proof (totalSellableStock_nonneg today (inventory s) P) as Hpos.
  pose proof (totalSellableStock_nonneg today more P) as Hmore.
  rewrite !availableQuantity_cases. simpl. rewrite totalSellableStock_app.
  destruct (_ !! P); lia.
Qed.

(** ** The product tiles *)

Lemma productMapGet_id (k : string) (m : list DisplayedProduct.t)
    (e : DisplayedProduct.t) :
  productMapGet k m = Some e -> DisplayedProduct.id e = k.
Proof.
  intros H. apply find_some in H as [_ H]. by apply String.eqb_eq.
Qed.

Lemma productMapGet_set (k : string) (v : DisplayedProduct.t)
    (m : list DisplayedProduct.t) :
  productMapGet k (productMapSet v m)
  = if String.eqb (DisplayedProduct.id v) k then Some v else productMapGet k m.
Proof.
  unfold productMapGet. induction m as [|p m IH]; simpl; [done|].
  destruct (String.eqb_spec (DisplayedProduct.id p) (DisplayedProduct.id v))
    as [Hpv|Hpv]; simpl.
  - rewrite Hpv. by destruct (String.eqb (DisplayedProduct.id v) k).
  - rewrite IH.
    destruct (String.eqb_spec (DisplayedProduct.id p) k) as [Hpk|Hpk]; [|done].
    destruct (String.eqb_spec (DisplayedProduct.id v) k); [congruence|done].
Qed.

Lemma productMapSet_new (v : DisplayedProduct.t) (m : list DisplayedProduct.t) :
  DisplayedProduct.id v ∉ map DisplayedProduct.id m ->
  productMapSet v m = m ++ [v].
Proof.
  induction m as [|p m IH]; simpl; [done|].
  rewrite not_elem_of_cons. intros [Hp Hm].
  destruct (String.eqb_spec (DisplayedProduct.id p) (DisplayedProduct.id v));
    [congruence|]. by rewrite IH.
Qed.

Lemma productMapSet_ids (v : DisplayedProduct.t) (m : list DisplayedProduct.t) :
  DisplayedProduct.id v ∈ map DisplayedProduct.id m ->
  map DisplayedProduct.id (productMapSet v m) = map DisplayedProduct.id m.
Proof.
  induction m as [|p m IH]; simpl; [by intros ?%elem_of_nil|].
  destruct (String.eqb_spec (DisplayedProduct.id p) (DisplayedProduct.id v))
    as [Hpv|Hpv]; simpl; [by rewrite Hpv|].
  rewrite elem_of_cons. intros [Heq|Hin]; [congruence|]. by rewrite IH.
Qed.

Lemma productMapGet_None (k : string) (m : list DisplayedProduct.t) :
  productMapGet k m = None -> k ∉ map DisplayedProduct.id m.
Proof.
  intros Hfind Hin. apply list_elem_of_In, in_map_iff in Hin as (x & Hid & Hx).
  pose proof (find_none _ _ Hfind x Hx) as Hno. simpl in Hno.
  rewrite Hid, String.eqb_refl in Hno. done.
Qed.

Lemma orZero_id (q : Z) : orZero q = q.
Proof. unfold orZero. destruct (Z.eqb_spec q 0); lia. Qed.

Lemma tileProduct_id (p : Product.t) : tileProduct p = p.
Proof. unfold tileProduct. rewrite orZero_id. by destruct p. Qed.

Lemma groupItem_NoDup (m : list DisplayedProduct.t) (item : InventoryItem.t) :
  NoDup (map DisplayedProduct.id m) ->
  NoDup (map DisplayedProduct.id (groupItem m item)).
Proof.
  intros Hnd. unfold groupItem. rewrite tileProduct_id.
  destruct (productMapGet _ m) as [existing|] eqn:Hget.
  - rewrite productMapSet_ids; [done|].
    change (DisplayedProduct.id (DisplayedProduct.withQuantity _ existing))
      with (DisplayedProduct.id existing).
    apply find_some in Hget as [Hin _].
    apply list_elem_of_In, in_map, Hin.
  - apply productMapGet_None in Hget.
    rewrite productMapSet_new by done.
    rewrite map_app. apply NoDup_app. split; [done|]. split; [|apply NoDup_singleton].
    intros i Hi Hi'%list_elem_of_singleton. by subst.
Qed.

Lemma group_NoDup (data : list InventoryItem.t) (m : list DisplayedProduct.t) :
  NoDup (map DisplayedProduct.id m) ->
  NoDup (map DisplayedProduct.id (fold_left groupItem data m)).
Proof.
  revert m. induction data as [|item data IH]; intros m Hm; simpl; [done|].
  by apply IH, groupItem_NoDup.
Qed.

Lemma group_lookup (data : list InventoryItem.t) (m : list DisplayedProduct.t)
    (P : string) :
  productMapGet P (fold_left groupItem data m)
  = match productMapGet P m with
    | Some e =>
        Some (DisplayedProduct.withQuantity
                (DisplayedProduct.quantity e + sumZ (batchQuantities P data)) e)
    | None =>
        match List.find
                (fun r => String.eqb (Product.id (InventoryItem.product r)) P)
                data with
        | Some first =>
            Some {| DisplayedProduct.product := InventoryItem.product first;
                    DisplayedProduct.quantity := sumZ (batchQuantities P data) |}
        | None => None
        end
    end.
Proof.
  revert m. induction data as [|item data IH]; intros m.
  - simpl. destruct (productMapGet P m) as [[p q]|]; [|done].
    unfold DisplayedProduct.withQuantity, batchQuantities, sumZ. simpl.
    do 2 f_equal. lia.
  - cbn [fold_left]. rewrite IH. unfold groupItem, batchQuantities.
    rewrite tileProduct_id. cbn [List.filter List.find].
    destruct (String.eqb_spec (Product.id (InventoryItem.product item)) P)
      as [HP|HP].
    + rewrite HP.
      destruct (productMapGet P m) as [existing|] eqn:Hget;
        rewrite productMapGet_set.
      * pose proof (productMapGet_id _ _ _ Hget) as Hid.
        change (DisplayedProduct.id (DisplayedProduct.withQuantity ?q existing))
          with (DisplayedProduct.id existing).
        rewrite Hid, String.eqb_refl.
        unfold DisplayedProduct.withQuantity, sumZ. simpl. do 2 f_equal. lia.
      * unfold DisplayedProduct.id at 1. simpl. rewrite HP, String.eqb_refl.
        unfold DisplayedProduct.withQuantity, sumZ. simpl. done.
    + destruct (productMapGet (Product.id (InventoryItem.product item)) m)
        as [existing|] eqn:Hget; rewrite productMapGet_set.
      * pose proof (productMapGet_id _ _ _ Hget) as Hid.
        change (DisplayedProduct.id (DisplayedProduct.withQuantity ?q existing))
          with (DisplayedProduct.id existing).
        rewrite Hid. by destruct (String.eqb_spec (Product.id (InventoryItem.product item)) P).
      * unfold DisplayedProduct.id at 1. simpl.
        by destruct (String.eqb_spec (Product.id (InventoryItem.product item)) P).
Qed.

(** X10.  The tiles that [fetchInventory] builds from an answer hold one
    tile per product of the answer; the tile of a product carries the
    product data of its first batch and the sum of the quantities of all its
    batches, expired ones included. *)
Theorem tiles_group_batches (inventoryData : list InventoryItem.t) (c : Catalog.t) :
  let tiles :=
    Catalog.displayedProducts (fetchInventory false (Some inventoryData) c) in
  NoDup (map DisplayedProduct.id tiles)
  /\ (forall P,
        productMapGet P tiles
        = match List.find
                  (fun r => String.eqb (Product.id (InventoryItem.product r)) P)
                  inventoryData with
          | Some first =>
              Some {| DisplayedProduct.product := InventoryItem.product first;
                      DisplayedProduct.quantity :=
                        sumZ (batchQuantities P inventoryData) |}
          | None => None
          end)
  /\ (forall P, P ∈ map DisplayedProduct.id tiles
                <-> P ∈ map (fun r => Product.id (InventoryItem.product r))
                            inventoryData).
Proof.
  simpl. split; [|split].
  - apply group_NoDup. constructor.
  - intros P. by rewrite group_lookup.
  - intros P. split.
    + intros Hin.
      destruct (productMapGet P (fold_left groupItem inventoryData [])) as [e|] eqn:He.
      * rewrite group_lookup in He. simpl in He.
        destruct (List.find _ inventoryData) as [first|] eqn:Hf; [|done].
        apply find_some in Hf as [Hin' Hid]. apply String.eqb_eq in Hid.
        rewrite <- Hid.
        apply list_elem_of_In,
          (in_map (fun r => Product.id (InventoryItem.product r))), Hin'.
      * by apply productMapGet_None in He.
    + intros Hin. apply list_elem_of_In, in_map_iff in Hin as (r & Hid & Hr).
      destruct (productMapGet P (fold_left groupItem inventoryData [])) as [e|] eqn:He.
      * apply find_some in He as [He Hide]. apply String.eqb_eq in Hide.
        rewrite <- Hide. apply list_elem_of_In, in_map, He.
      * rewrite group_lookup in He. simpl in He.
        destruct (List.find _ inventoryData) as [first|] eqn:Hf; [done|].
        pose proof (find_none _ _ Hf r Hr) as Hno. simpl in Hno.
        rewrite Hid, String.eqb_refl in Hno. done.
Qed.

(** ** Paging through the inventory *)

(** Re-filing the tiles of a map under their ids gives the same tiles. *)
Lemma refile_tiles (tiles acc : list DisplayedProduct.t) :
  NoDup (map DisplayedProduct.id (acc ++ tiles)) ->
  fold_left
    (fun productMap product =>
       productMapSet
         (DisplayedProduct.withQuantity
            (orZero (DisplayedProduct.quantity product)) product)
         productMap)
    tiles acc
  = acc ++ tiles.
Proof.
  revert acc. induction tiles as [|p tiles IH]; intros acc Hnd; simpl.
  - by rewrite app_nil_r.
  - assert (DisplayedProduct.withQuantity (orZero (DisplayedProduct.quantity p)) p = p)
      as -> by (rewrite orZero_id; by destruct p).
    rewrite productMapSet_new.
    + rewrite IH; rewrite <- app_assoc; done.
    + rewrite map_app in Hnd. apply NoDup_app in Hnd as (_ & Hdisj & _).
      intros Hin. apply (Hdisj _ Hin). simpl. by left.
Qed.

Lemma fetch_paged (records : list InventoryItem.t) (c : Catalog.t) :
  paged records (fetchInventory false (servePage records 0) c)
  /\ (Catalog.hasMoreInventory (fetchInventory false (servePage records 0) c) = true ->
      Catalog.inventoryOffset (fetchInventory false (servePage records 0) c) = LIMIT).
Proof.
  simpl. rewrite drop_0. split; [split; simpl|].
  - rewrite length_take.
    destruct (decide (LIMIT <= length records)%nat).
    + f_equal. lia.
    + rewrite !take_ge; [done|lia|lia].
  - rewrite length_take. lia.
  - intros H%Nat.eqb_neq. rewrite length_take in H. apply take_ge. lia.
  - done.
  - intros H%Nat.eqb_eq. exact H.
Qed.

Lemma loadMore_paged (records : list InventoryItem.t) (c : Catalog.t) :
  paged records c ->
  let c' := loadMoreInventory (servePage records (Catalog.inventoryOffset c)) c in
  paged records c'
  /\ (Catalog.hasMoreInventory c' = true ->
      Catalog.hasMoreInventory c = true
      /\ Catalog.inventoryOffset c' = (Catalog.inventoryOffset c + LIMIT)%nat).
Proof.
  intros Hp. pose proof Hp as [Hpre Hoff Hdone Htiles].
  unfold loadMoreInventory, servePage.
  destruct (Catalog.hasMoreInventory c) eqn:Hmore; cbn [negb].
  2: { split; [exact Hp|]. by rewrite Hmore. }
  set (data := take LIMIT (drop (Catalog.inventoryOffset c) records)).
  assert (length data = min LIMIT (length records - Catalog.inventoryOffset c))
    as Hlen by (subst data; by rewrite length_take, length_drop).
  destruct (isEmpty data) eqn:Hemp.
  - split; [split; cbn [Catalog.inventory Catalog.inventoryOffset
                         Catalog.hasMoreInventory Catalog.displayedProducts];
            try done|done].
    intros _. rewrite Hpre. apply take_ge.
    clearbody data. destruct data; [|done].
    cbn [length] in Hlen. unfold LIMIT in Hlen. lia.
  - assert (Catalog.inventory c ++ data
            = take (Catalog.inventoryOffset c + length data) records) as Hcat.
    { rewrite Hpre. subst data. rewrite take_take_drop.
      destruct (decide (LIMIT <= length records - Catalog.inventoryOffset c)%nat).
      - f_equal. lia.
      - rewrite !take_ge; [done|lia|lia]. }
    split; [split|];
      cbn [Catalog.inventory Catalog.inventoryOffset Catalog.hasMoreInventory
           Catalog.displayedProducts].
    + exact Hcat.
    + lia.
    + intros H%Nat.eqb_neq. rewrite Hcat. apply take_ge. lia.
    + rewrite fold_left_app. f_equal. rewrite Htiles.
      apply (refile_tiles _ []). simpl. apply group_NoDup. constructor.
    + intros H%Nat.eqb_eq. split; [done|]. by rewrite H.
Qed.

Lemma browse_paged (records : list InventoryItem.t) (c : Catalog.t) (n : nat) :
  paged records (browse records n c)
  /\ (Catalog.hasMoreInventory (browse records n c) = true ->
      Catalog.inventoryOffset (browse records n c) = (S n * LIMIT)%nat).
Proof.
  induction n as [|n [IH Hoff]]; [apply fetch_paged|].
  cbn [browse]. destruct (loadMore_paged records _ IH) as [Hp Hm].
  split; [exact Hp|]. intros Hmore. destruct (Hm Hmore) as [Hprev ->].
  rewrite (Hoff Hprev). lia.
Qed.

Lemma scroll_paged (records : list InventoryItem.t) (c : Catalog.t) (k n : nat) :
  paged records c ->
  (Catalog.hasMoreInventory c = true ->
   Catalog.inventoryOffset c = (k * LIMIT)%nat) ->
  paged records (scroll records n c)
  /\ (Catalog.hasMoreInventory (scroll records n c) = true ->
      Catalog.inventoryOffset (scroll records n c) = ((n + k) * LIMIT)%nat).
Proof.
  intros Hp Hk. induction n as [|n [IH Hoff]]; [by split|].
  cbn [scroll]. destruct (loadMore_paged records _ IH) as [Hp' Hm].
  split; [exact Hp'|]. intros Hmore. destruct (Hm Hmore) as [Hprev ->].
  rewrite (Hoff Hprev). lia.
Qed.

Lemma handleSearch_paged (records : list InventoryItem.t) (c : Catalog.t) :
  paged records (handleSearch c).
Proof. split; simpl; [by rewrite take_0|lia|done|done]. Qed.

(** When the search effect runs and fetches, a click on Search followed by
    [n] scrolls is [browse]. *)
Lemma searchAndScroll_browse (records : list InventoryItem.t) (query : string)
    (n : nat) (p : SearchPage.t) :
  String.eqb query (SearchPage.searchQuery p) = false ->
  searchAndScroll records query false n p = browse records n (SearchPage.catalog p).
Proof.
  intros Hnew. unfold searchAndScroll, search. rewrite Hnew.
  cbn [SearchPage.catalog]. induction n as [|n IH]; [done|].
  cbn [scroll browse]. by rewrite IH.
Qed.

(** X9.  Over a fixed result list, after a click on Search followed by any
    number of load-more steps the inventory holds exactly the first
    [inventoryOffset] records, each once and in order; once the feed reports
    no more pages the whole list is loaded.  That is the case after more
    load-more steps than the list has full pages, and one step sooner when
    the search itself fetched, that is when its query is new and not blank;
    a search that repeats the query or is blank leaves the list empty until
    the first load-more. *)
Theorem search_then_scroll_loads_every_record (records : list InventoryItem.t)
    (query : string) (blank : bool) (n : nat) (p : SearchPage.t) :
  let b := searchAndScroll records query blank n p in
  Catalog.inventory b = take (Catalog.inventoryOffset b) records
  /\ Catalog.inventoryOffset b = length (Catalog.inventory b)
  /\ (Catalog.hasMoreInventory b = false -> Catalog.inventory b = records)
  /\ ((length records < n * LIMIT)%nat ->
      Catalog.hasMoreInventory b = false /\ Catalog.inventory b = records)
  /\ (String.eqb query (SearchPage.searchQuery p) = false -> blank = false ->
      (length records < S n * LIMIT)%nat ->
      Catalog.hasMoreInventory b = false /\ Catalog.inventory b = records)
  /\ (String.eqb query (SearchPage.searchQuery p) = true \/ blank = true ->
      n = O ->
      Catalog.inventory b = [] /\ Catalog.displayedProducts b = []
      /\ Catalog.hasMoreInventory b = true).
Proof.
  cbv zeta. unfold searchAndScroll, search.
  set (c0 := SearchPage.catalog
               (if String.eqb query (SearchPage.searchQuery p)
                then {| SearchPage.catalog := handleSearch (SearchPage.catalog p);
                        SearchPage.searchQuery := SearchPage.searchQuery p |}
                else {| SearchPage.catalog :=
                          fetchInventory blank (servePage records 0)
                            (handleSearch (SearchPage.catalog p));
                        SearchPage.searchQuery := query |})).
  assert (paged records c0
          /\ (Catalog.hasMoreInventory c0 = true ->
              Catalog.inventoryOffset c0
              = ((if String.eqb query (SearchPage.searchQuery p) then 0
                  else if blank then 0 else 1) * LIMIT)%nat)) as [Hp0 Hk0].
  { subst c0. destruct (String.eqb query (SearchPage.searchQuery p)).
    - split; [apply handleSearch_paged|done].
    - destruct blank.
      + split; [apply (handleSearch_paged records (SearchPage.catalog p))|done].
      + cbn [SearchPage.catalog]. destruct (fetch_paged records
                    (handleSearch (SearchPage.catalog p))) as [H1 H2].
        split; [exact H1|]. intros Hm. rewrite (H2 Hm). lia. }
  destruct (scroll_paged records c0 _ n Hp0 Hk0)
    as [[Hpre Hoff Hdone Htiles] Hmore].
  split; [done|]. split; [by rewrite Hpre, length_take; lia|].
  split; [done|]. split; [|split].
  - intros Hlen. destruct (Catalog.hasMoreInventory (scroll records n c0)) eqn:Hm.
    + specialize (Hmore eq_refl). unfold LIMIT in *.
      destruct (String.eqb query (SearchPage.searchQuery p)); [lia|].
      destruct blank; lia.
    + by split; [|apply Hdone].
  - intros Hnew Hblank Hlen. rewrite Hnew, Hblank in Hmore.
    destruct (Catalog.hasMoreInventory (scroll records n c0)) eqn:Hm.
    + specialize (Hmore eq_refl). unfold LIMIT in *. lia.
    + by split; [|apply Hdone].
  - intros Hsame ->. cbn [scroll]. subst c0.
    destruct (String.eqb query (SearchPage.searchQuery p)); [done|].
    destruct Hsame as [Hsame| ->]; [done|]. done.
Qed.

Lemma search_then_scroll_loads_every_record_witness :
  Catalog.inventory
    (searchAndScroll tenUnits "apple" false 0
       (SearchPage.mk (Catalog.mk [] [] true 0) ""))
  = tenUnits.
Proof.
  destruct (search_then_scroll_loads_every_record tenUnits "apple" false 0
              (SearchPage.mk (Catalog.mk [] [] true 0) ""))
    as (_ & _ & _ & _ & Hnew & _).
  apply Hnew; [reflexivity|reflexivity|]. vm_compute. lia.
Defined.

(** X11.  After a search and any number of load-more steps the tiles are
    those obtained by grouping all loaded records in one pass: merging a
    page into the tiles already shown loses and doubles nothing. *)
Theorem browse_tiles_group_loaded_records (records : list InventoryItem.t)
    (c : Catalog.t) (n : nat) :
  Catalog.displayedProducts (browse records n c)
  = Catalog.displayedProducts
      (fetchInventory false (Some (Catalog.inventory (browse records n c))) c).
Proof. apply (browse_paged records c n). Qed.

(** ** What the grid shows *)

Lemma reservedQty_nonneg (l : list CartItem.t) (P : string) :
  Forall (fun item => 1 <= CartItem.quantity item) l -> 0 <= reservedQty l P.
Proof.
  intros Hq. unfold reservedQty. apply sumZ_nonneg, Forall_forall.
  intros q Hin. apply list_elem_of_In, in_map_iff in Hin as (x & <- & Hx).
  apply filter_In in Hx as [Hx _].
  pose proof (proj1 (Forall_forall _ _) Hq x (proj2 (list_elem_of_In _ _) Hx)).
  simpl in *. lia.
Qed.

Lemma reservedByOthers_nonneg (carts : list SavedCart.t) (cid : option string)
    (P : string) :
  Forall goodSavedCart carts -> 0 <= reservedByOthers carts cid P.
Proof.
  intros Hgood. unfold reservedByOthers, otherCarts. apply sumZ_nonneg, Forall_forall.
  intros q Hin. apply list_elem_of_In, in_map_iff in Hin as (c & <- & Hc).
  apply filter_In in Hc as [Hc _].
  pose proof (proj1 (Forall_forall _ _) Hgood c (proj2 (list_elem_of_In _ _) Hc))
    as (_ & _ & _ & _ & Hq).
  by apply reservedQty_nonneg.
Qed.

Lemma availableQuantity_nonneg (today : Z) (s : State) (P : string) :
  0 <= availableQuantity today s P.
Proof.
  pose proof (totalSellableStock_nonneg today (inventory s) P) as Hpos.
  rewrite availableQuantity_cases. destruct (_ !! P); lia.
Qed.

(** X12.  The grid shows the tiles in the same order with the same product
    data, each with the availability of its product in place of the grouped
    quantity: the number shown is never negative, and in a session it is
    zero for a product of which no batch is sellable. *)
Theorem grid_shows_availability (today : Z) (s : State)
    (tiles : list DisplayedProduct.t) :
  let shown := filteredProducts today s tiles in
  map DisplayedProduct.product shown = map DisplayedProduct.product tiles
  /\ Forall (fun p =>
               DisplayedProduct.quantity p
               = availableQuantity today s (DisplayedProduct.id p)
               /\ 0 <= DisplayedProduct.quantity p) shown
  /\ (reachable s ->
      forall p,
        p ∈ shown ->
        totalSellableStock today (inventory s) (DisplayedProduct.id p) = 0 ->
        DisplayedProduct.quantity p = 0).
Proof.
  cbv zeta. unfold filteredProducts.
  assert (Forall (fun p =>
                    DisplayedProduct.quantity p
                    = availableQuantity today s (DisplayedProduct.id p)
                    /\ 0 <= DisplayedProduct.quantity p)
                 (map (fun product =>
                         DisplayedProduct.withQuantity
                           (availableQuantity today s (DisplayedProduct.id product))
                           product) tiles)) as Hshown.
  { apply Forall_forall. intros p Hp.
    apply list_elem_of_In, in_map_iff in Hp as (t & <- & _). simpl.
    split; [done|]. apply availableQuantity_nonneg. }
  split; [|split; [exact Hshown|]].
  - rewrite map_map. by apply map_ext.
  - intros Hs p Hp Hzero. apply reachable_Inv in Hs.
    pose proof (proj1 (Forall_forall _ _) Hshown p Hp) as [-> _].
    rewrite availableQuantity_closed by apply Hs. rewrite Hzero.
    pose proof (reservedByOthers_nonneg (savedCarts s) (currentCartId s)
                  (DisplayedProduct.id p)) as H1.
    rewrite (inv_synced s Hs) in H1. specialize (H1 (inv_saved s Hs)).
    rewrite <- (inv_synced s Hs) in H1.
    pose proof (reservedQty_nonneg (cart s) (DisplayedProduct.id p)
                  (proj2 (inv_cart s Hs))). lia.
Qed.

Lemma grid_shows_availability_witness :
  DisplayedProduct.quantity
    <$> filteredProducts 0 (setInventory [] parked)
          [ {| DisplayedProduct.product := apple; DisplayedProduct.quantity := 10 |} ]
  = [0].
Proof.
  assert (reachable (setInventory [] parked)) as Hs
    by apply (reachable_step parked (InventoryFetched [])), parked_reachable.
  destruct (grid_shows_availability 0 (setInventory [] parked)
              [ {| DisplayedProduct.product := apple;
                   DisplayedProduct.quantity := 10 |} ]) as (_ & _ & Hzero).
  unfold filteredProducts in *. cbn [map fmap list_fmap] in *.
  specialize (Hzero Hs _ (list_elem_of_here _ _) eq_refl).
  exact (f_equal (fun q => [q]) Hzero).
Defined.

(** ** Editing the live cart *)

(** The availability only depends on the live cart through what it holds
    of the product. *)
Lemma availability_by_cart (today : Z) (s : State) (items : list CartItem.t)
    (P : string) :
  currentCartId s <> Some ""%string ->
  availableQuantity today (setCart items s) P
  = Z.max 0 (totalSellableStock today (inventory s) P
             - reservedByOthers (savedCarts s) (currentCartId s) P
             - reservedQty items P).
Proof. intros Hwf. by rewrite availableQuantity_closed. Qed.

Lemma filter_reservedQty_le (p : CartItem.t -> bool) (l : list CartItem.t)
    (P : string) :
  Forall (fun item => 1 <= CartItem.quantity item) l ->
  reservedQty (List.filter p l) P <= reservedQty l P.
Proof.
  unfold reservedQty, sumZ. induction 1 as [|x l Hx _ IH]; simpl; [done|].
  destruct (p x); simpl; destruct (sameId P x); simpl; lia.
Qed.

Lemma filter_other_reservedQty (id P : string) (l : list CartItem.t) :
  P <> id ->
  reservedQty (List.filter (fun item => negb (sameId id item)) l) P
  = reservedQty l P.
Proof.
  intros Hne. unfold reservedQty, sumZ. induction l as [|x l IH]; simpl; [done|].
  destruct (sameId id x) eqn:Hx; simpl.
  - destruct (sameId P x) eqn:HP; [|exact IH].
    unfold sameId in Hx, HP. apply String.eqb_eq in Hx, HP. congruence.
  - destruct (sameId P x); simpl; by rewrite IH.
Qed.

(** X13.  [removeFromCart] leaves no line of the product, keeps the other
    lines in their order, raises no alert and changes nothing when repeated
    or when the product has no line; in a session it lowers no
    availability and leaves that of the other products as it was. *)
Theorem removeFromCart_removes_line (id : string) (s : State) :
  let s' := fst (removeFromCart id s) in
  (id ∉ map CartItem.id (cart s'))
  /\ (cart s' `sublist_of` cart s)
  /\ (forall line, CartItem.id line <> id -> line ∈ cart s -> line ∈ cart s')
  /\ fst (removeFromCart id s') = s'
  /\ (id ∉ map CartItem.id (cart s) -> s' = s)
  /\ snd (removeFromCart id s) = []
  /\ (reachable s ->
      forall today P,
        availableQuantity today s P <= availableQuantity today s' P
        /\ (P <> id -> availableQuantity today s' P = availableQuantity today s P)).
Proof.
  cbv zeta. unfold removeFromCart. cbn [fst snd].
  assert (forall l, id ∉ map CartItem.id
                      (List.filter (fun item => negb (sameId id item)) l)) as Hgone.
  { intros l Hin. apply list_elem_of_In, in_map_iff in Hin as (x & Hid & Hx).
    apply filter_In in Hx as [_ Hx]. apply negb_true_iff in Hx.
    unfold sameId in Hx. rewrite Hid, String.eqb_refl in Hx. done. }
  repeat split.
  - apply Hgone.
  - induction (cart s) as [|x l IH]; simpl; [constructor|].
    destruct (negb _); by constructor.
  - intros line Hne Hin. apply list_elem_of_In, filter_In.
    split; [by apply list_elem_of_In|].
    apply negb_true_iff, String.eqb_neq. exact Hne.
  - setters. by rewrite filter_idem.
  - intros Habsent. rewrite filter_all; [apply setCart_same|].
    apply Forall_forall. intros x Hx. apply negb_true_iff, String.eqb_neq.
    intros Hid. apply Habsent. rewrite <- Hid.
    apply list_elem_of_In, in_map, list_elem_of_In, Hx.
  - apply reachable_Inv in H.
    rewrite availability_by_cart, availableQuantity_closed by apply H.
    pose proof (filter_reservedQty_le (fun item => negb (sameId id item)) (cart s) P
                  (proj2 (inv_cart s H))). lia.
  - intros Hne. apply reachable_Inv in H.
    rewrite availability_by_cart, availableQuantity_closed by apply H.
    by rewrite filter_other_reservedQty.
Qed.

Lemma removeFromCart_removes_line_witness :
  availableQuantity 0 (addApples 3) "A"
  <= availableQuantity 0 (fst (removeFromCart "A" (addApples 3))) "A".
Proof.
  destruct (removeFromCart_removes_line "A" (addApples 3))
    as (_ & _ & _ & _ & _ & _ & H).
  apply (H (addApples_reachable 3) 0 "A"%string).
Defined.

Section Decrease.
Context (id : string) (delta availableQuantity : Z).
Hypothesis delta_nonpos : delta <= 0.

Local Abbreviation decreased l :=
  (omap fst (map (updateLine id delta availableQuantity) l)).

Lemma decrease_no_alert (l : list CartItem.t) :
  concat (map snd (map (updateLine id delta availableQuantity) l)) = [].
Proof.
  induction l as [|x l IH]; [done|]. cbn [map concat]. rewrite IH, app_nil_r.
  unfold updateLine. destruct (sameId id x); [|done].
  destruct (_ <=? _); [done|].
  by destruct (Z.gtb_spec delta 0); [lia|].
Qed.

Lemma decrease_reservedQty_le (l : list CartItem.t) (P : string) :
  Forall (fun item => 1 <= CartItem.quantity item) l ->
  reservedQty (decreased l) P <= reservedQty l P.
Proof.
  unfold reservedQty, sumZ. induction 1 as [|x l Hx _ IH]; [done|].
  cbn [map]. pose proof (updateLine_cases id delta availableQuantity x) as Hc.
  destruct (fst (updateLine id delta availableQuantity x)) as [x'|] eqn:Hx'; cbn.
  - rewrite Hx'. cbn. destruct Hc as [Hid [->|(_ & _ & ->)]].
    + destruct (sameId P x); cbn; lia.
    + unfold sameId in *. cbn. destruct (String.eqb _ P); cbn; lia.
  - rewrite Hx'. destruct (sameId P x); cbn; lia.
Qed.

Lemma decrease_other_reservedQty (l : list CartItem.t) (P : string) :
  P <> id -> reservedQty (decreased l) P = reservedQty l P.
Proof.
  intros Hne. unfold reservedQty, sumZ. induction l as [|x l IH]; [done|].
  cbn [map]. pose proof (updateLine_cases id delta availableQuantity x) as Hc.
  destruct (fst (updateLine id delta availableQuantity x)) as [x'|] eqn:Hx'; cbn.
  - rewrite Hx'. cbn. destruct Hc as [Hid [->|(Hsame & _ & ->)]].
    + destruct (sameId P x); cbn; lia.
    + unfold sameId in *. cbn. apply String.eqb_eq in Hsame.
      destruct (String.eqb_spec (CartItem.id x) P); [congruence|]. exact IH.
  - rewrite Hx'. destruct Hc as [Hsame _]. unfold sameId in *.
    apply String.eqb_eq in Hsame.
    destruct (String.eqb_spec (CartItem.id x) P); [congruence|]. exact IH.
Qed.
End Decrease.

(** X14.  [updateQuantity] with a change that is not positive is never
    refused: it raises no alert.  In a session it lowers no availability and
    leaves that of the other products as it was. *)
Theorem decrease_is_never_refused (today : Z) (id : string) (delta : Z)
    (s : State) :
  delta <= 0 ->
  snd (updateQuantity today id delta s) = []
  /\ (reachable s ->
      forall day P,
        availableQuantity day s P
        <= availableQuantity day (fst (updateQuantity today id delta s)) P
        /\ (P <> id ->
            availableQuantity day (fst (updateQuantity today id delta s)) P
            = availableQuantity day s P)).
Proof.
  intros Hdelta. unfold updateQuantity. cbn [fst snd]. split.
  - by apply decrease_no_alert.
  - intros Hs day P. apply reachable_Inv in Hs.
    rewrite availability_by_cart, availableQuantity_closed by apply Hs. split.
    + pose proof (decrease_reservedQty_le id delta (availableQuantity today s id)
                    Hdelta (cart s) P (proj2 (inv_cart s Hs))). lia.
    + intros Hne. by rewrite decrease_other_reservedQty.
Qed.

Lemma decrease_is_never_refused_witness :
  snd (updateQuantity 0 "A" (-1) (addApples 3)) = []
  /\ availableQuantity 0 (addApples 3) "A"
     <= availableQuantity 0 (fst (updateQuantity 0 "A" (-1) (addApples 3))) "A".
Proof.
  assert (-1 <= 0) as Hle by lia.
  destruct (decrease_is_never_refused 0 "A" (-1) (addApples 3) Hle) as [Hno Hav].
  split; [exact Hno|]. apply (Hav (addApples_reachable 3) 0 "A"%string).
Defined.

(** ** An accepted addition *)

Section Bump.
Context (P : string) (newQuantity : Z).

Local Abbreviation bump :=
  (fun item : CartItem.t =>
     if sameId P item then CartItem.withQuantity newQuantity item else item).

Lemma bump_absent (l : list CartItem.t) :
  P ∉ map CartItem.id l -> map bump l = l.
Proof.
  induction l as [|x l IH]; simpl; [done|].
  rewrite not_elem_of_cons. intros [Hx Hl]. rewrite IH by done.
  unfold sameId. by destruct (String.eqb_spec (CartItem.id x) P).
Qed.

Lemma bump_other_reservedQty (l : list CartItem.t) (P' : string) :
  P' <> P -> reservedQty (map bump l) P' = reservedQty l P'.
Proof.
  intros Hne. unfold reservedQty, sumZ. induction l as [|x l IH]; simpl; [done|].
  destruct (sameId P x) eqn:Hx.
  - unfold sameId in *. cbn. apply String.eqb_eq in Hx.
    destruct (String.eqb_spec (CartItem.id x) P'); [congruence|]. exact IH.
  - destruct (sameId P' x); simpl; by rewrite IH.
Qed.

Lemma bump_found (l : list CartItem.t) (line : CartItem.t) :
  NoDup (map CartItem.id l) ->
  List.find (sameId P) l = Some line ->
  reservedQty (map bump l) P = newQuantity
  /\ sumLines (map bump l)
     = sumLines l + CartItem.price line * (newQuantity - CartItem.quantity line).
Proof.
  unfold reservedQty, sumLines, sumZ.
  induction l as [|x l IH]; simpl; [done|].
  intros [Hx Hl]%NoDup_cons. destruct (sameId P x) eqn:Hid.
  - intros [= <-]. pose proof Hid as Heq. apply String.eqb_eq in Heq.
    rewrite Heq in Hx. rewrite bump_absent by done.
    pose proof (reservedQty_notin l P Hx) as H0. unfold reservedQty, sumZ in H0.
    unfold sameId in *. cbn. rewrite Hid. cbn. rewrite H0. lia.
  - intros Hfind. destruct (IH Hl Hfind) as [IH1 IH2].
    rewrite Hid. rewrite IH1, IH2. lia.
Qed.
End Bump.

Lemma total_sumLines (items : list CartItem.t) : total items = sumLines items.
Proof. apply reduceTotal_sumLines. Qed.

Lemma sumLines_app (l1 l2 : list CartItem.t) :
  sumLines (l1 ++ l2) = sumLines l1 + sumLines l2.
Proof. unfold sumLines. by rewrite map_app, sumZ_app. Qed.

Lemma reservedQty_snoc (l1 l2 : list CartItem.t) (P : string) :
  reservedQty (l1 ++ l2) P = reservedQty l1 P + reservedQty l2 P.
Proof. unfold reservedQty. by rewrite List.filter_app, map_app, sumZ_app. Qed.

(** X15.  In a session, an addition that raises no alert takes exactly one
    unit of the product out of its availability and leaves the availability
    of every other product as it was; the cart holds one unit more of the
    product, and the total grows by the price of the product's line, or by
    the product's selling price when the line is new. *)
Theorem accepted_add_takes_one_unit (today : Z) (product : Product.t) (s : State) :
  reachable s ->
  snd (addToCart today product s) = [] ->
  let P := Product.id product in
  let s' := fst (addToCart today product s) in
  availableQuantity today s' P = availableQuantity today s P - 1
  /\ (forall P', P' <> P ->
                 availableQuantity today s' P' = availableQuantity today s P')
  /\ reservedQty (cart s') P = reservedQty (cart s) P + 1
  /\ total (cart s')
     = total (cart s)
       + match List.find (sameId P) (cart s) with
         | Some line => CartItem.price line
         | None => Product.selling_price product
         end.
Proof.
  intros Hs Hok P s'.
  pose proof (addToCart_refused_iff today product s Hs) as Hiff.
  apply reachable_Inv in Hs. pose proof (inv_current s Hs) as Hwf.
  destruct (inv_cart s Hs) as [Hnd Hq].
  fold P in Hiff. cbv zeta in Hiff.
  assert (2 * reservedQty (cart s) P + 1
          <= totalSellableStock today (inventory s) P
             - reservedByOthers (savedCarts s) (currentCartId s) P) as Hroom.
  { destruct (Z.le_gt_cases (2 * reservedQty (cart s) P + 1)
                (totalSellableStock today (inventory s) P
                 - reservedByOthers (savedCarts s) (currentCartId s) P))
      as [Hle|Hgt]; [done|].
    exfalso. apply (proj2 Hiff); [lia|done]. }
  pose proof (reservedQty_nonneg (cart s) P Hq) as Hpos.
  pose proof (reservedQty_find (cart s) P Hnd) as Hfind.
  assert (reservedQty (cart s') P = reservedQty (cart s) P + 1
          /\ (forall P', P' <> P -> reservedQty (cart s') P' = reservedQty (cart s) P')
          /\ sumLines (cart s')
             = sumLines (cart s)
               + match List.find (sameId P) (cart s) with
                 | Some line => CartItem.price line
                 | None => Product.selling_price product
                 end) as (Hone & Hothers & Hsum).
  { subst s'. revert Hok. unfold addToCart. fold P.
    destruct (List.find (sameId P) (cart s)) as [line|] eqn:Hline;
      destruct (_ >? _); cbn [fst snd]; try done; intros _; setters.
    - destruct (bump_found P (CartItem.quantity line + 1) (cart s) line Hnd Hline)
        as [H1 H2].
      rewrite H1, H2, Hfind. repeat split; [|lia].
      intros P' Hne. by apply bump_other_reservedQty.
    - rewrite Hfind. apply find_sameId_None in Hline.
      repeat split.
      + rewrite reservedQty_snoc. rewrite (reservedQty_notin _ _ Hline).
        unfold reservedQty, sumZ, sameId. simpl. rewrite String.eqb_refl. simpl. lia.
      + intros P' Hne. rewrite reservedQty_snoc.
        unfold reservedQty at 2. unfold sumZ, sameId. simpl.
        destruct (String.eqb_spec P P'); [congruence|]. simpl. lia.
      + rewrite sumLines_app. unfold sumLines at 2. unfold sumZ. simpl. lia. }
  pose proof (addToCart_setCart today product s) as Hs'. fold s' in Hs'.
  assert (inventory s' = inventory s /\ savedCarts s' = savedCarts s
          /\ currentCartId s' = currentCartId s) as (Hi & Hc & Hid)
    by (rewrite Hs'; done).
  assert (currentCartId s' <> Some ""%string) as Hwf' by (by rewrite Hid).
  rewrite !total_sumLines. repeat split; try done.
  - rewrite !availableQuantity_closed by done.
    rewrite Hi, Hc, Hid, Hone. lia.
  - intros P' Hne. rewrite !availableQuantity_closed by done.
    by rewrite Hi, Hc, Hid, Hothers.
Qed.

Lemma accepted_add_takes_one_unit_witness :
  availableQuantity 0 (fst (addToCart 0 apple (addApples 2))) "A" = 7.
Proof.
  assert (snd (addToCart 0 apple (addApples 2)) = []) as Hok
    by (vm_compute; reflexivity).
  destruct (accepted_add_takes_one_unit 0 apple (addApples 2)
              (addApples_reachable 2) Hok) as (Hav & _).
  cbv zeta in Hav. change (Product.id apple) with "A"%string in Hav.
  rewrite Hav. vm_compute. reflexivity.
Defined.

(** ** More invariants of a session *)

Lemma updateCart_nonempty (clock : Clock) (cartId : string)
    (items : list CartItem.t) (name : option string) (ls : Carts.Storage) :
  items <> [] ->
  Forall (fun c => SavedCart.items c <> []) ls ->
  Forall (fun c => SavedCart.items c <> [])
         (snd (Carts.updateCart clock cartId items name ls)).
Proof.
  intros Hitems Hls. pose proof (updateCart_spec clock cartId items name ls) as H.
  destruct (Carts.findIndex _ ls) as [i|]; [|by rewrite H].
  destruct H as (old & Hold & _ & ->). simpl. by apply Forall_insert.
Qed.

Lemma isEmpty_false {A} (l : list A) : isEmpty l = false -> l <> [].
Proof. by destruct l. Qed.

Lemma filter_keeps_id (cartId X : string) (ls : list SavedCart.t) :
  X <> cartId ->
  X ∈ map SavedCart.id ls ->
  X ∈ map SavedCart.id
        (List.filter (fun c => negb (String.eqb (SavedCart.id c) cartId)) ls).
Proof.
  intros Hne Hin. apply list_elem_of_In, in_map_iff in Hin as (c & Hid & Hc).
  apply list_elem_of_In, in_map_iff. exists c. split; [done|].
  apply filter_In. split; [done|].
  apply negb_true_iff, String.eqb_neq. congruence.
Qed.

(** Read the fields of a state given by its constructor: [proj] reduces the
    projections of a constructor, [fields] evaluates the setters on it. *)
Ltac proj :=
  cbn [cart savedCarts currentCartId cartName customerName inventory
       isSaveCartModalOpen isLoadCartModalOpen isCheckoutModalOpen
       localStorage] in *.

Ltac fields :=
  cbv beta iota zeta delta
    [clearCart mount initialState setCart setSavedCarts setCurrentCartId
     setCartName setCustomerName setInventory setIsSaveCartModalOpen
     setIsLoadCartModalOpen setIsCheckoutModalOpen setLocalStorage
     Carts.getSavedCarts cart savedCarts currentCartId cartName customerName
     inventory isSaveCartModalOpen isLoadCartModalOpen isCheckoutModalOpen
     localStorage fst snd] in *.

Lemma filter_nonempty (p : SavedCart.t -> bool) (ls : list SavedCart.t) :
  Forall (fun c => SavedCart.items c <> []) ls ->
  Forall (fun c => SavedCart.items c <> []) (List.filter p ls).
Proof.
  intros Hne. apply Forall_forall. intros c Hc.
  apply list_elem_of_In, filter_In in Hc as [Hc _].
  by apply (proj1 (Forall_forall _ _) Hne), list_elem_of_In.
Qed.

Lemma step_anchored (ev : Event) (s : State) :
  Inv s -> anchored s -> anchored (fst (step ev s)).
Proof.
  intros [Hsync _ _ _] Hanch.
  destruct s as [items carts cid cname customer inv m1 m2 m3 ls].
  unfold anchored in *. proj. destruct Hanch as [Hne Hcur]. subst carts.
  destruct ev; cbn [step]; proj.
  - fields. by split.
  - fields. by split.
  - unfold addToCart. proj.
    destruct (List.find _ _); destruct (_ >? _); fields; by split.
  - fields. by split.
  - fields. by split.
  - unfold handleSaveCart. proj.
    destruct (isEmpty items) eqn:Hemp; [fields; by split|].
    destruct (truthy cid); [|fields; by split].
    pose proof (updateCart_nonempty clock (default ""%string cid) items
                  (orUndefined cname) ls (isEmpty_false _ Hemp) Hne) as Hne'.
    pose proof (updateCart_ids clock (default ""%string cid) items
                  (orUndefined cname) ls) as Hids.
    destruct (Carts.updateCart _ _ _ _ _) as [[u|] ls'] eqn:Hupd.
    + fields. destruct (truthyStr cname); fields;
        (split; [exact Hne'|intros X HX; rewrite Hids; by apply Hcur]).
    + fields. split; [done|]. intros X HX. rewrite Hids. by apply Hcur.
  - unfold handleConfirmSaveCart. proj.
    destruct (isEmpty items) eqn:Hemp; [fields; by split|].
    unfold Carts.saveCart. fields. split.
    + constructor; [|done]. simpl. by apply isEmpty_false.
    + intros X [= <-]. by left.
  - unfold handleNewCart. proj. destruct (_ && _); fields; by split.
  - fields. by split.
  - destruct (_ !! index) as [c|] eqn:Hc; [|fields; by split].
    unfold handleLoadCart. proj. destruct (_ && _); [fields; by split|].
    fields. split; [done|]. intros X [= <-].
    apply list_elem_of_lookup_2 in Hc.
    apply list_elem_of_In, in_map, list_elem_of_In, Hc.
  - unfold handleDeleteCart, Carts.deleteCart. proj.
    destruct confirm; [|fields; by split].
    fields.
    destruct (decide (cid = Some cartId)) as [Heq|Hneq].
    + rewrite bool_decide_eq_true_2 by done.
      split; [by apply filter_nonempty|done].
    + rewrite bool_decide_eq_false_2 by done.
      split; [by apply filter_nonempty|].
      intros X HX. apply filter_keeps_id; [congruence|by apply Hcur].
  - unfold handleCheckout. proj. destruct (isEmpty _); fields; by split.
  - unfold handleConfirmCheckout, Carts.deleteCart. proj.
    destruct (isEmpty _); [fields; by split|].
    destruct response; try (fields; by split).
    destruct (truthy cid) eqn:Ht; fields.
    + split; [by apply filter_nonempty|done].
    + by split.
  - fields. by split.
  - fields. by split.
  - destruct which; fields; by split.
Qed.

Lemma reachable_anchored (s : State) : reachable s -> anchored s.
Proof.
  induction 1 as [|s ev Hs IH].
  - split; [constructor|done].
  - apply step_anchored; [by apply reachable_Inv|done].
Qed.

(** X20.  In every state of a session the page's list of saved carts is the
    stored one, and every stored cart has at least one line, one line per
    product, each of quantity at least one, a total equal to the sum of
    price times quantity over its lines, and a non-empty id and name. *)
Theorem stored_carts_are_consistent (s : State) :
  reachable s ->
  savedCarts s = Carts.getSavedCarts (localStorage s)
  /\ Forall (fun c =>
               SavedCart.items c <> []
               /\ NoDup (map CartItem.id (SavedCart.items c))
               /\ Forall (fun line => 1 <= CartItem.quantity line) (SavedCart.items c)
               /\ SavedCart.total c = sumLines (SavedCart.items c)
               /\ SavedCart.id c <> ""%string
               /\ SavedCart.name c <> ""%string)
            (localStorage s).
Proof.
  intros Hs. pose proof (reachable_anchored s Hs) as [Hne _].
  apply reachable_Inv in Hs. split; [apply Hs|].
  apply Forall_forall. intros c Hc.
  pose proof (proj1 (Forall_forall _ _) Hne c Hc) as Hlines.
  pose proof (proj1 (Forall_forall _ _) (inv_saved s Hs) c Hc)
    as (Hid & Hname & Htotal & Hnd & Hq).
  done.
Qed.

Lemma stored_carts_are_consistent_witness :
  Forall (fun c => SavedCart.total c = sumLines (SavedCart.items c))
         (localStorage parked).
Proof.
  destruct (stored_carts_are_consistent parked parked_reachable) as [_ H].
  eapply Forall_impl; [exact H|]. by intros c (_ & _ & _ & Ht & _).
Defined.

(** X21.  In every state of a session the current cart id, when set, is the
    id of a cart in storage, so [getCartById] finds a cart under it. *)
Theorem current_cart_is_stored (s : State) (X : string) :
  reachable s ->
  currentCartId s = Some X ->
  exists c, Carts.getCartById X (localStorage s) = Some c /\ SavedCart.id c = X.
Proof.
  intros Hs HX. pose proof (reachable_anchored s Hs) as [_ Hcur].
  specialize (Hcur X HX). apply list_elem_of_In, in_map_iff in Hcur as (c & Hid & Hc).
  unfold Carts.getCartById, Carts.getSavedCarts.
  destruct (List.find _ (localStorage s)) as [c'|] eqn:Hfind.
  - exists c'. split; [done|]. apply find_some in Hfind as [_ H].
    by apply String.eqb_eq.
  - pose proof (find_none _ _ Hfind c Hc) as Hno. simpl in Hno.
    rewrite Hid, String.eqb_refl in Hno. done.
Qed.

Lemma current_cart_is_stored_witness :
  exists c, Carts.getCartById "cart-1700000000000" (localStorage parked) = Some c
            /\ SavedCart.id c = "cart-1700000000000"%string.
Proof.
  apply (current_cart_is_stored parked _ parked_reachable).
  by rewrite parked_eq.
Defined.

(** ** Parking, updating and deleting carts *)

Lemma reservedByOthers_cons (c : SavedCart.t) (carts : list SavedCart.t)
    (cid : option string) (P : string) :
  reservedByOthers (c :: carts) cid P
  = (if bool_decide (Some (SavedCart.id c) = cid) then 0
     else reservedQty (SavedCart.items c) P)
    + reservedByOthers carts cid P.
Proof.
  unfold reservedByOthers, otherCarts, sumZ. simpl.
  destruct (bool_decide _); simpl; lia.
Qed.

Lemma reservedByOthers_absent (carts : list SavedCart.t) (x P : string) :
  Forall (fun c => SavedCart.id c <> x) carts ->
  reservedByOthers carts (Some x) P = reservedByOthers carts None P.
Proof.
  induction 1 as [|c carts Hc _ IH]; [done|].
  rewrite !reservedByOthers_cons, IH.
  rewrite !bool_decide_eq_false_2; [done|done|congruence].
Qed.

(** What the handlers leave in the fields the availability reads. *)
Lemma handleConfirmSaveCart_fields (clock : Clock) (s : State) :
  cart s <> [] ->
  let saved :=
    fst (Carts.saveCart clock (cart s) (orUndefined (cartName s)) (localStorage s)) in
  let s1 := fst (handleConfirmSaveCart clock s) in
  cart s1 = cart s /\ inventory s1 = inventory s
  /\ currentCartId s1 = Some (SavedCart.id saved)
  /\ savedCarts s1 = saved :: localStorage s
  /\ localStorage s1 = saved :: localStorage s.
Proof.
  destruct s as [items carts cid cname customer inv m1 m2 m3 ls].
  unfold handleConfirmSaveCart. proj. intros Hne.
  destruct items as [|line rest]; [done|]. by fields.
Qed.

Lemma handleNewCart_fields (s : State) :
  let s2 := fst (handleNewCart true s) in
  cart s2 = [] /\ inventory s2 = inventory s /\ currentCartId s2 = None
  /\ savedCarts s2 = savedCarts s /\ localStorage s2 = localStorage s.
Proof.
  destruct s as [items carts cid cname customer inv m1 m2 m3 ls].
  unfold handleNewCart. rewrite andb_false_r. by fields.
Qed.

Lemma handleLoadCart_fields (confirm : bool) (X : SavedCart.t) (s : State) :
  isEmpty (cart s) || truthy (currentCartId s) || confirm = true ->
  let s1 := fst (handleLoadCart confirm X s) in
  cart s1 = SavedCart.items X /\ inventory s1 = inventory s
  /\ currentCartId s1 = Some (SavedCart.id X)
  /\ cartName s1 = SavedCart.name X
  /\ savedCarts s1 = savedCarts s /\ localStorage s1 = localStorage s.
Proof.
  destruct s as [items carts cid cname customer inv m1 m2 m3 ls].
  unfold handleLoadCart. proj. intros Hgo.
  destruct (isEmpty items), (truthy cid), confirm; try done; by fields.
Qed.

Lemma handleDeleteCart_fields (cartId : string) (s : State) :
  let s' := fst (handleDeleteCart true cartId s) in
  cart s' = cart s /\ inventory s' = inventory s
  /\ currentCartId s'
     = (if bool_decide (currentCartId s = Some cartId) then None
        else currentCartId s)
  /\ savedCarts s' = withoutCart cartId (localStorage s)
  /\ localStorage s' = withoutCart cartId (localStorage s).
Proof.
  destruct s as [items carts cid cname customer inv m1 m2 m3 ls].
  unfold handleDeleteCart, Carts.deleteCart, withoutCart. fields.
  by destruct (bool_decide (cid = Some cartId)); fields.
Qed.

(** X16.  In a session, saving an unsaved cart under an id that no saved
    cart has changes no availability, and neither does starting a new cart
    afterwards: the parked cart goes on holding what the live cart held. *)
Theorem parking_keeps_the_reservation (clock : Clock) (s : State) :
  reachable s ->
  currentCartId s = None ->
  cart s <> [] ->
  Forall (fun c => SavedCart.id c <> ("cart-" ++ Carts.showN (Date_now clock))%string)
         (savedCarts s) ->
  let s1 := fst (handleConfirmSaveCart clock s) in
  let s2 := fst (handleNewCart true s1) in
  currentCartId s1 = Some ("cart-" ++ Carts.showN (Date_now clock))%string
  /\ cart s1 = cart s
  /\ cart s2 = [] /\ currentCartId s2 = None
  /\ savedCarts s2 = savedCarts s1
  /\ forall today P,
       availableQuantity today s1 P = availableQuantity today s P
       /\ availableQuantity today s2 P = availableQuantity today s P.
Proof.
  intros Hs Hnone Hcart Hfresh s1 s2.
  pose proof (reachable_Inv s Hs) as HI.
  assert (reachable s1) as Hs1 by apply (reachable_step s (ConfirmSaveCart clock)), Hs.
  assert (reachable s2) as Hs2 by apply (reachable_step s1 (NewCart true)), Hs1.
  apply reachable_Inv in Hs1, Hs2.
  destruct (handleConfirmSaveCart_fields clock s Hcart) as (C1 & I1 & D1 & S1 & _).
  destruct (handleNewCart_fields s1) as (C2 & I2 & D2 & S2 & _).
  fold s1 in C1, I1, D1, S1. fold s2 in C2, I2, D2, S2.
  change (SavedCart.id
            (fst (Carts.saveCart clock (cart s) (orUndefined (cartName s))
                    (localStorage s))))
    with ("cart-" ++ Carts.showN (Date_now clock))%string in D1.
  rewrite <- (inv_synced s HI) in S1.
  repeat split; try done.
  - rewrite !availableQuantity_closed by (apply Hs1 || apply HI).
    rewrite C1, I1, D1, S1, Hnone, reservedByOthers_cons.
    rewrite bool_decide_eq_true_2 by done.
    by rewrite reservedByOthers_absent.
  - rewrite !availableQuantity_closed by (apply Hs2 || apply HI).
    rewrite C2, I2, D2, S2, I1, S1, Hnone, reservedByOthers_cons.
    rewrite bool_decide_eq_false_2 by done.
    change (SavedCart.items
              (fst (Carts.saveCart clock (cart s) (orUndefined (cartName s))
                      (localStorage s))))
      with (cart s).
    unfold reservedQty at 2. unfold sumZ. simpl. f_equal. lia.
Qed.

Lemma parking_keeps_the_reservation_witness :
  availableQuantity 0 (fst (handleNewCart true
                              (fst (handleConfirmSaveCart evening (addApples 2)))))
                    "A"
  = 8.
Proof.
  assert (currentCartId (addApples 2) = None) as Hnone by (vm_compute; reflexivity).
  assert (cart (addApples 2) <> []) as Hcart by (vm_compute; discriminate).
  assert (Forall (fun c => SavedCart.id c
                           <> ("cart-" ++ Carts.showN (Date_now evening))%string)
                 (savedCarts (addApples 2))) as Hfresh
    by (vm_compute; constructor).
  destruct (parking_keeps_the_reservation evening (addApples 2)
              (addApples_reachable 2) Hnone Hcart Hfresh)
    as (_ & _ & _ & _ & _ & Hav).
  destruct (Hav 0 "A"%string) as [_ ->]. vm_compute. reflexivity.
Defined.

Lemma filter_insert_same {A} (p : A -> bool) (l : list A) (i : nat) (old u : A) :
  l !! i = Some old -> p old = false -> p u = false ->
  List.filter p (<[i := u]> l) = List.filter p l.
Proof.
  revert i. induction l as [|y l IH]; intros [|i]; simpl; try done.
  - intros [= ->] Hold Hu. by rewrite Hold, Hu.
  - intros Hi Hold Hu. by rewrite (IH i Hi Hold Hu).
Qed.

Lemma handleSaveCart_fields (clock : Clock) (s : State) :
  let s' := fst (handleSaveCart clock s) in
  cart s' = cart s /\ inventory s' = inventory s
  /\ currentCartId s' = currentCartId s
  /\ (savedCarts s' = savedCarts s
      \/ savedCarts s'
         = snd (Carts.updateCart clock (default ""%string (currentCartId s))
                  (cart s) (orUndefined (cartName s)) (localStorage s))
         /\ truthy (currentCartId s) = true).
Proof.
  destruct s as [items carts cid cname customer inv m1 m2 m3 ls].
  unfold handleSaveCart. proj.
  destruct (isEmpty items); [fields; by repeat split; auto|].
  destruct (truthy cid) eqn:Ht; [|fields; by repeat split; auto].
  destruct (Carts.updateCart _ _ _ _ _) as [[u|] ls'];
    [|fields; by repeat split; auto].
  fields. destruct (truthyStr cname); fields; by repeat split; auto.
Qed.

(** X17.  In a session, saving over the current cart changes no
    availability and keeps the live cart and the current cart id: the
    stored copy of the current cart is not counted, before or after. *)
Theorem updating_current_cart_keeps_availability (clock : Clock) (s : State) :
  reachable s ->
  let s' := fst (handleSaveCart clock s) in
  cart s' = cart s
  /\ currentCartId s' = currentCartId s
  /\ forall today P, availableQuantity today s' P = availableQuantity today s P.
Proof.
  intros Hs s'. pose proof (reachable_Inv s Hs) as HI.
  assert (reachable s') as Hs' by apply (reachable_step s (SaveCart clock)), Hs.
  apply reachable_Inv in Hs'.
  destruct (handleSaveCart_fields clock s) as (Hc & Hi & Hid & Hsaved).
  fold s' in Hc, Hi, Hid, Hsaved.
  assert (otherCarts (savedCarts s') (currentCartId s)
          = otherCarts (savedCarts s) (currentCartId s)) as Ho.
  { destruct Hsaved as [->|[-> Ht]]; [done|].
    apply truthy_Some in Ht as (X & HX & HXne). rewrite HX. simpl.
    pose proof (updateCart_spec clock X (cart s) (orUndefined (cartName s))
                  (localStorage s)) as H.
    rewrite (inv_synced s HI).
    destruct (Carts.findIndex _ (localStorage s)) as [i|]; [|by rewrite H].
    destruct H as (old & Hold & Holdid & ->). cbn [snd]. unfold otherCarts.
    apply (filter_insert_same _ _ i old); [done| |];
      apply negb_false_iff, bool_decide_eq_true; simpl; congruence. }
  split; [done|]. split; [done|]. intros today P.
  rewrite !availableQuantity_closed by (apply Hs' || apply HI).
  unfold reservedByOthers. by rewrite Hid, Hc, Hi, Ho.
Qed.

Lemma updating_current_cart_keeps_availability_witness :
  availableQuantity 0 (fst (handleSaveCart evening parked)) "A" = 8.
Proof.
  destruct (updating_current_cart_keeps_availability evening parked
              parked_reachable) as (_ & _ & Hav).
  rewrite Hav. rewrite parked_eq. vm_compute. reflexivity.
Defined.

Lemma reservedByCart_nonneg (cartId : string) (carts : list SavedCart.t) (P : string) :
  Forall goodSavedCart carts -> 0 <= reservedByCart cartId carts P.
Proof.
  intros Hgood. unfold reservedByCart. apply sumZ_nonneg, Forall_forall.
  intros q Hin. apply list_elem_of_In, in_map_iff in Hin as (c & <- & Hc).
  apply filter_In in Hc as [Hc _].
  pose proof (proj1 (Forall_forall _ _) Hgood c (proj2 (list_elem_of_In _ _) Hc))
    as (_ & _ & _ & _ & Hq).
  by apply reservedQty_nonneg.
Qed.

Lemma reservedByOthers_without (cartId : string) (carts : list SavedCart.t)
    (cid : option string) (P : string) :
  cid <> Some cartId ->
  reservedByOthers (withoutCart cartId carts) cid P
  = reservedByOthers carts cid P - reservedByCart cartId carts P.
Proof.
  intros Hne. induction carts as [|c carts IH].
  - unfold reservedByOthers, reservedByCart, sumZ. simpl. lia.
  - rewrite reservedByOthers_cons. unfold withoutCart, reservedByCart in *. simpl.
    destruct (String.eqb_spec (SavedCart.id c) cartId) as [Hc|Hc]; simpl.
    + rewrite bool_decide_eq_false_2 by congruence.
      unfold sumZ in *. simpl. lia.
    + rewrite reservedByOthers_cons. lia.
Qed.

(** X18.  In a session, deleting a saved cart lowers no availability.  When
    the cart is not the current one, each product gets back what the deleted
    cart held of it (up to the floor at zero); when it is the current one,
    every availability stays as it was, the live cart keeping its lines. *)
Theorem deleting_a_cart_releases_its_stock (cartId : string) (s : State) :
  reachable s ->
  let s' := fst (handleDeleteCart true cartId s) in
  forall today P,
    availableQuantity today s P <= availableQuantity today s' P
    /\ (currentCartId s <> Some cartId ->
        availableQuantity today s' P
        = Z.max 0 (totalSellableStock today (inventory s) P
                   - (reservedByOthers (savedCarts s) (currentCartId s) P
                      - reservedByCart cartId (savedCarts s) P)
                   - reservedQty (cart s) P))
    /\ (currentCartId s = Some cartId ->
        availableQuantity today s' P = availableQuantity today s P).
Proof.
  intros Hs s' today P. pose proof (reachable_Inv s Hs) as HI.
  assert (reachable s') as Hs'
    by apply (reachable_step s (DeleteCart true cartId)), Hs.
  apply reachable_Inv in Hs'.
  pose proof (reservedByCart_nonneg cartId (localStorage s) P (inv_saved s HI))
    as Hheld.
  destruct (handleDeleteCart_fields cartId s) as (Hc & Hi & Hid & Hsaved & _).
  fold s' in Hc, Hi, Hid, Hsaved.
  rewrite !availableQuantity_closed by (apply Hs' || apply HI).
  rewrite Hc, Hi, Hid, Hsaved, (inv_synced s HI).
  destruct (decide (currentCartId s = Some cartId)) as [Heq|Hneq].
  - rewrite bool_decide_eq_true_2 by done.
    assert (reservedByOthers (withoutCart cartId (localStorage s)) None P
            = reservedByOthers (localStorage s) (currentCartId s) P) as ->.
    { rewrite Heq. unfold reservedByOthers, withoutCart.
      by rewrite otherCarts_neverSaved. }
    repeat split; try done; lia.
  - rewrite bool_decide_eq_false_2 by done.
    rewrite (reservedByOthers_without cartId (localStorage s)
               (currentCartId s) P Hneq).
    repeat split; try done; lia.
Qed.

Lemma deleting_a_cart_releases_its_stock_witness :
  availableQuantity 0 (fst (handleDeleteCart true "cart-1700000000000"
                              parkedThenNew)) "A"
  = 10.
Proof.
  destruct (deleting_a_cart_releases_its_stock "cart-1700000000000"
              parkedThenNew parkedThenNew_reachable 0 "A"%string)
    as (_ & Hother & _).
  rewrite Hother; [vm_compute; reflexivity|]. vm_compute. discriminate.
Defined.

(** Saving over a current cart that [updateCart] finds. *)
Lemma handleSaveCart_updated (clock : Clock) (s : State) (X name : string)
    (updated : SavedCart.t) (ls' : Carts.Storage) :
  cart s <> [] ->
  currentCartId s = Some X -> X <> ""%string ->
  cartName s = name -> name <> ""%string ->
  Carts.updateCart clock X (cart s) (Some name) (localStorage s)
  = (Some updated, ls') ->
  snd (handleSaveCart clock s) = [CartUpdated]
  /\ cart (fst (handleSaveCart clock s)) = cart s
  /\ savedCarts (fst (handleSaveCart clock s)) = ls'
  /\ localStorage (fst (handleSaveCart clock s)) = ls'.
Proof.
  destruct s as [items carts cid cname customer inv m1 m2 m3 ls].
  unfold handleSaveCart. proj. intros Hne -> HX -> Hname Hupd.
  destruct items as [|line rest]; [done|]. cbn [isEmpty truthy].
  change (default ""%string (Some X)) with X.
  assert (truthyStr X = true) as ->
    by (apply (proj2 (truthy_Some (Some X))); by eexists).
  assert (truthyStr name = true) as Hn
    by (apply (proj2 (truthy_Some (Some name))); by eexists).
  unfold orUndefined. rewrite Hn, Hupd. fields. by rewrite Hn.
Qed.

(** X19.  In a session, loading the cart [X] that is found under its id and
    saving at once is accepted with the cart-updated alert and replaces the
    stored cart, where it stands, by [X] with a new [updatedAt]: lines,
    total, name, id and creation time are as they were. *)
Theorem load_then_save_only_touches_time (clock : Clock) (X : SavedCart.t)
    (confirm : bool) (s : State) :
  reachable s ->
  Carts.getCartById (SavedCart.id X) (localStorage s) = Some X ->
  isEmpty (cart s) || truthy (currentCartId s) || confirm = true ->
  let s1 := fst (handleLoadCart confirm X s) in
  let s2 := fst (handleSaveCart clock s1) in
  snd (handleSaveCart clock s1) = [CartUpdated]
  /\ cart s2 = SavedCart.items X
  /\ savedCarts s2 = localStorage s2
  /\ Carts.getCartById (SavedCart.id X) (localStorage s2)
     = Some (touched (toISOString clock) X)
  /\ exists i,
       localStorage s !! i = Some X
       /\ localStorage s2 = <[i := touched (toISOString clock) X]> (localStorage s).
Proof.
  intros Hs HX Hgo s1 s2. pose proof (reachable_Inv s Hs) as HI.
  pose proof (reachable_anchored s Hs) as [Hne _].
  unfold Carts.getCartById, Carts.getSavedCarts in HX.
  destruct (find_findIndex _ _ _ HX) as (i & Hi & Hlook).
  pose proof (list_elem_of_lookup_2 _ _ _ Hlook) as Hin.
  pose proof (proj1 (Forall_forall _ _) (inv_saved s HI) X Hin)
    as (Hid & Hname & Htotal & _).
  pose proof (proj1 (Forall_forall _ _) Hne X Hin) as Hlines.
  destruct (handleLoadCart_fields confirm X s Hgo) as (C1 & _ & D1 & N1 & _ & L1).
  fold s1 in C1, D1, N1, L1.
  assert (Carts.updateCart clock (SavedCart.id X) (cart s1)
            (Some (SavedCart.name X)) (localStorage s1)
          = (Some (touched (toISOString clock) X),
             <[i := touched (toISOString clock) X]> (localStorage s))) as Hupd.
  { rewrite C1, L1.
    pose proof (updateCart_spec clock (SavedCart.id X) (SavedCart.items X)
                  (Some (SavedCart.name X)) (localStorage s)) as H.
    rewrite Hi in H. destruct H as (old & Hold & _ & ->).
    assert (Some old = Some X) as [= ->]
      by (etransitivity; [symmetry; exact Hold|exact Hlook]).
    assert (truthy (Some (SavedCart.name X)) = true) as ->
      by (apply truthy_Some; by exists (SavedCart.name X)).
    unfold touched. simpl. by rewrite reduceTotal_sumLines, <- Htotal. }
  assert (cart s1 <> []) as Hcart by (by rewrite C1).
  destruct (handleSaveCart_updated clock s1 _ _ _ _ Hcart D1 Hid N1 Hname Hupd)
    as (Halert & C2 & S2 & L2).
  fold s2 in C2, S2, L2.
  split; [done|]. split; [by rewrite C2, C1|]. split; [by rewrite S2, L2|].
  split; [|exists i; by rewrite L2].
  rewrite L2. unfold Carts.getCartById, Carts.getSavedCarts.
  apply find_insert_first; [done|]. simpl. apply String.eqb_refl.
Qed.

Lemma load_then_save_only_touches_time_witness :
  localStorage (fst (handleSaveCart evening
                       (fst (handleLoadCart false parkedCart parkedThenNew))))
  = [touched (toISOString evening) parkedCart].
Proof.
  assert (Carts.getCartById (SavedCart.id parkedCart) (localStorage parkedThenNew)
          = Some parkedCart) as HX by (vm_compute; reflexivity).
  destruct (load_then_save_only_touches_time evening parkedCart false
              parkedThenNew parkedThenNew_reachable HX eq_refl)
    as (_ & _ & _ & _ & i & Hi & ->).
  destruct i as [|i]; [vm_compute; reflexivity|].
  vm_compute in Hi. destruct i; discriminate.
Defined.

(** ** Checkout *)

Lemma handleConfirmCheckout_fields (s : State) :
  cart s <> [] ->
  let s' := fst (handleConfirmCheckout Accepted s) in
  cart s' = [] /\ inventory s' = inventory s
  /\ (truthy (currentCartId s) = true ->
      currentCartId s' = None
      /\ savedCarts s'
         = withoutCart (default ""%string (currentCartId s)) (localStorage s))
  /\ (truthy (currentCartId s) = false ->
      currentCartId s' = currentCartId s /\ savedCarts s' = savedCarts s).
Proof.
  destruct s as [items carts cid cname customer inv m1 m2 m3 ls].
  unfold handleConfirmCheckout, Carts.deleteCart, withoutCart. proj. intros Hne.
  destruct items as [|line rest]; [done|]. cbn [isEmpty].
  destruct (truthy cid); fields; by repeat split.
Qed.

(** X22.  In a session, after an accepted checkout the handler has not
    touched the inventory list, and the availability of every product is the
    sellable total less what the other saved carts hold: what the checked
    out cart held is no longer subtracted. *)
Theorem checkout_frees_the_cart_quantities (s : State) :
  reachable s ->
  cart s <> [] ->
  let s' := fst (handleConfirmCheckout Accepted s) in
  inventory s' = inventory s
  /\ forall today P,
       availableQuantity today s' P
       = Z.max 0 (totalSellableStock today (inventory s) P
                  - reservedByOthers (savedCarts s) (currentCartId s) P)
       /\ availableQuantity today s P <= availableQuantity today s' P.
Proof.
  intros Hs Hcart s'. pose proof (reachable_Inv s Hs) as HI.
  assert (reachable s') as Hs'
    by apply (reachable_step s (ConfirmCheckout Accepted)), Hs.
  apply reachable_Inv in Hs'.
  destruct (handleConfirmCheckout_fields s Hcart) as (Hc & Hi & Hyes & Hno).
  fold s' in Hc, Hi, Hyes, Hno. split; [done|]. intros today P.
  pose proof (reservedQty_nonneg (cart s) P (proj2 (inv_cart s HI))) as Hlive.
  rewrite !availableQuantity_closed by (apply Hs' || apply HI).
  rewrite Hc, Hi.
  assert (reservedByOthers (savedCarts s') (currentCartId s') P
          = reservedByOthers (savedCarts s) (currentCartId s) P) as ->.
  { destruct (truthy (currentCartId s)) eqn:Ht.
    - destruct (Hyes eq_refl) as [-> ->].
      apply truthy_Some in Ht as (X & HX & _). rewrite HX, (inv_synced s HI).
      unfold reservedByOthers, withoutCart. simpl.
      by rewrite otherCarts_neverSaved.
    - by destruct (Hno eq_refl) as [-> ->]. }
  change (reservedQty [] P) with 0. split; [f_equal; lia|lia].
Qed.

Lemma checkout_frees_the_cart_quantities_witness :
  availableQuantity 0 (fst (handleConfirmCheckout Accepted parked)) "A" = 10.
Proof.
  assert (cart parked <> []) as Hne by (rewrite parked_eq; done).
  destruct (checkout_frees_the_cart_quantities parked parked_reachable Hne)
    as [_ Hav].
  destruct (Hav 0 "A"%string) as [-> _]. rewrite parked_eq. vm_compute. reflexivity.
Defined.

Lemma NoDup_ids_inj (l : list CartItem.t) (x y : CartItem.t) :
  NoDup (map CartItem.id l) -> x ∈ l -> y ∈ l ->
  CartItem.id x = CartItem.id y -> x = y.
Proof.
  intros Hnd Hx Hy Hxy. induction l as [|z l IH]; [by apply elem_of_nil in Hx|].
  simpl in Hnd. apply NoDup_cons in Hnd as [Hz Hnd].
  apply elem_of_cons in Hx as [->|Hx]; apply elem_of_cons in Hy as [->|Hy];
    try done.
  - exfalso. apply Hz. rewrite Hxy.
    apply list_elem_of_In, in_map, list_elem_of_In, Hy.
  - exfalso. apply Hz. rewrite <- Hxy.
    apply list_elem_of_In, in_map, list_elem_of_In, Hx.
  - by apply IH.
Qed.

(** X23.  In a session, the items of the checkout request name each product
    once, each with a quantity of at least one, which is the quantity the
    live cart holds of the product; the grand total is the sum of price
    times quantity over the lines of the cart. *)
Theorem checkout_request_lines (s : State) :
  reachable s ->
  NoDup (map CheckoutLine.product_id (checkoutItems (cart s)))
  /\ Forall (fun l =>
               1 <= CheckoutLine.quantity l
               /\ CheckoutLine.quantity l
                  = reservedQty (cart s) (CheckoutLine.product_id l))
            (checkoutItems (cart s))
  /\ length (checkoutItems (cart s)) = length (cart s)
  /\ total (cart s) = sumLines (cart s).
Proof.
  intros Hs. apply reachable_Inv in Hs. destruct (inv_cart s Hs) as [Hnd Hq].
  unfold checkoutItems. split; [|split; [|split]].
  - rewrite map_map. simpl. exact Hnd.
  - apply Forall_forall. intros l Hl.
    apply list_elem_of_In, in_map_iff in Hl as (item & <- & Hitem). simpl.
    pose proof (proj1 (Forall_forall _ _) Hq item (proj2 (list_elem_of_In _ _) Hitem))
      as Hone. simpl in Hone. split; [done|].
    rewrite (reservedQty_find _ _ Hnd).
    destruct (List.find (sameId (CartItem.id item)) (cart s)) as [line|] eqn:Hf.
    + apply find_some in Hf as [Hin Hid]. apply String.eqb_eq in Hid.
      f_equal. symmetry.
      apply (NoDup_ids_inj (cart s)); [done| | |done]; by apply list_elem_of_In.
    + pose proof (find_none _ _ Hf item Hitem) as Hno. unfold sameId in Hno.
      by rewrite String.eqb_refl in Hno.
  - apply length_map.
  - apply total_sumLines.
Qed.

Lemma checkout_request_lines_witness :
  CheckoutLine.quantity <$> checkoutItems (cart parked) = [2]
  /\ NoDup (map CheckoutLine.product_id (checkoutItems (cart parked))).
Proof.
  destruct (checkout_request_lines parked parked_reachable) as (Hnd & _).
  split; [|exact Hnd]. rewrite parked_eq. reflexivity.
Defined.

(** ** Raising a quantity *)

Lemma updateLine_alerts_unique (id : string) (delta availableQuantity : Z)
    (l : list CartItem.t) (line : CartItem.t) :
  NoDup (map CartItem.id l) -> line ∈ l -> CartItem.id line = id ->
  concat (map snd (map (updateLine id delta availableQuantity) l))
  = snd (updateLine id delta availableQuantity line).
Proof.
  intros Hnd Hin Hid. induction l as [|x l IH]; [by apply elem_of_nil in Hin|].
  cbn [map concat]. simpl in Hnd. apply NoDup_cons in Hnd as [Hx Hnd].
  apply elem_of_cons in Hin as [<-|Hin].
  - rewrite Hid in Hx.
    rewrite (proj2 (updateLine_others id delta availableQuantity l Hx)).
    apply app_nil_r.
  - assert (CartItem.id x <> id) as Hne.
    { intros Heq. apply Hx. rewrite Heq, <- Hid.
      apply list_elem_of_In, in_map, list_elem_of_In, Hin. }
    rewrite updateLine_other by (by apply String.eqb_neq).
    by apply IH.
Qed.

(** X24.  In a session, raising the quantity of a line by [delta > 0] is
    refused exactly when what the other carts leave of the stock is less
    than twice the line's quantity plus [delta]: as in [addToCart], the
    line's present quantity is taken out of the availability it is compared
    with.  A refused change leaves the cart as it was. *)
Theorem increase_refused_iff (today : Z) (delta : Z) (line : CartItem.t) (s : State) :
  reachable s ->
  line ∈ cart s ->
  0 < delta ->
  let P := CartItem.id line in
  let free := totalSellableStock today (inventory s) P
              - reservedByOthers (savedCarts s) (currentCartId s) P in
  (snd (updateQuantity today P delta s) <> []
   <-> free < 2 * CartItem.quantity line + delta)
  /\ (snd (updateQuantity today P delta s) <> [] ->
      cart (fst (updateQuantity today P delta s)) = cart s).
Proof.
  intros Hs Hin Hdelta P free. apply reachable_Inv in Hs.
  destruct (inv_cart s Hs) as [Hnd Hq].
  pose proof (proj1 (Forall_forall _ _) Hq line Hin) as Hone. simpl in Hone.
  pose proof (availableQuantity_closed today s P (inv_current s Hs)) as Hav.
  assert (reservedQty (cart s) P = CartItem.quantity line) as Hheld.
  { rewrite (reservedQty_find _ _ Hnd).
    destruct (List.find (sameId P) (cart s)) as [found|] eqn:Hf.
    - apply find_some in Hf as [Hfin Hid]. apply String.eqb_eq in Hid.
      f_equal. apply (NoDup_ids_inj (cart s)); [done| |done|done].
      by apply list_elem_of_In.
    - pose proof (find_none _ _ Hf line (proj1 (list_elem_of_In _ _) Hin)) as Hno.
      unfold sameId, P in Hno. by rewrite String.eqb_refl in Hno. }
  rewrite Hheld in Hav. fold free in Hav.
  unfold updateQuantity. cbn [fst snd]. split.
  - rewrite (updateLine_alerts_unique P delta _ (cart s) line Hnd Hin eq_refl).
    unfold updateLine, sameId. fold P. rewrite String.eqb_refl, Hav.
    destruct (Z.leb_spec (CartItem.quantity line + delta) 0); [lia|].
    destruct (Z.gtb_spec delta 0); [|lia]. simpl.
    destruct (Z.gtb_spec (CartItem.quantity line + delta)
                (Z.max 0 (free - CartItem.quantity line))); simpl;
      split; try done; lia.
  - intros Hrefused. setters. by apply updateLine_refused.
Qed.

Lemma increase_refused_iff_witness :
  snd (updateQuantity 0 "A" 1 (addApples 5)) <> []
  /\ cart (fst (updateQuantity 0 "A" 1 (addApples 5))) = cart (addApples 5).
Proof.
  assert (exists line, line ∈ cart (addApples 5) /\ CartItem.id line = "A"%string
                       /\ CartItem.quantity line = 5)
    as (line & Hin & Hid & Hq).
  { eexists. split; [apply list_elem_of_In; vm_compute; left; reflexivity|].
    by split. }
  assert (0 < 1) as Hpos by lia.
  destruct (increase_refused_iff 0 1 line (addApples 5) (addApples_reachable 5)
              Hin Hpos) as [Hiff Hsame].
  cbv zeta in Hiff, Hsame. rewrite Hid in Hiff, Hsame.
  assert (snd (updateQuantity 0 "A" 1 (addApples 5)) <> []) as Hrefused.
  { apply Hiff. rewrite Hq. vm_compute. reflexivity. }
  split; [exact Hrefused|exact (Hsame Hrefused)].
Defined.
